(** * docctl.py: transmittal validation and reconciliation

    A shallow embedding of [src/docctl.py].  Spreadsheets are lists of
    rows of cells (the openpyxl rows as [iter_rows] yields them), Python
    dicts are insertion-ordered association lists, directories are
    stdpp finite maps from entry names to entries, and the Version
    History Index is a [gset] of pairs.  Python strings are modelled as
    ASCII strings; [str.strip], [str.lower] and [str.upper] act on the
    ASCII range as Python does.  Code that raises an exception caught
    by the caller returns [inl]/[None] to that caller; exceptions that
    escape [process_transmittal] abort the run ([Aborted]). *)

From Stdlib Require Import Ascii String ZArith List Bool Sorted.
From stdpp Require Import base gmap sets list strings pretty.

Import ListNotations.
Open Scope string_scope.

(* ------------------------------------------------------------------ *)
(** ** Python string primitives on ASCII *)

Module Py.

(** [str.isspace] on ASCII: space, \t \n \v \f \r and \x1c..\x1f. *)
Definition is_space (c : ascii) : bool :=
  let n := nat_of_ascii c in
  (n =? 32)%nat || ((9 <=? n) && (n <=? 13))%nat || ((28 <=? n) && (n <=? 31))%nat.

Fixpoint drop_while (p : ascii -> bool) (l : list ascii) : list ascii :=
  match l with
  | [] => []
  | c :: l' => if p c then drop_while p l' else l
  end.

Definition rdrop_while (p : ascii -> bool) (l : list ascii) : list ascii :=
  rev (drop_while p (rev l)).

(** [s.strip()] *)
Definition strip (s : string) : string :=
  string_of_list_ascii
    (rdrop_while is_space (drop_while is_space (list_ascii_of_string s))).

Definition is_semi (c : ascii) : bool := Ascii.eqb c ";".

(** [s.rstrip(";")]: removes every trailing semicolon. *)
Definition rstrip_semi (s : string) : string :=
  string_of_list_ascii (rdrop_while is_semi (list_ascii_of_string s)).

Definition upper_char (c : ascii) : ascii :=
  let n := nat_of_ascii c in
  if ((97 <=? n) && (n <=? 122))%nat then ascii_of_nat (n - 32) else c.

Definition lower_char (c : ascii) : ascii :=
  let n := nat_of_ascii c in
  if ((65 <=? n) && (n <=? 90))%nat then ascii_of_nat (n + 32) else c.

Definition upper (s : string) : string :=
  string_of_list_ascii (map upper_char (list_ascii_of_string s)).

Definition lower (s : string) : string :=
  string_of_list_ascii (map lower_char (list_ascii_of_string s)).

Fixpoint is_prefix (p s : list ascii) : bool :=
  match p, s with
  | [], _ => true
  | _ :: _, [] => false
  | a :: p', b :: s' => Ascii.eqb a b && is_prefix p' s'
  end.

Fixpoint contains_l (p s : list ascii) : bool :=
  is_prefix p s || match s with [] => false | _ :: s' => contains_l p s' end.

(** [needle in haystack] on strings *)
Definition contains (needle haystack : string) : bool :=
  contains_l (list_ascii_of_string needle) (list_ascii_of_string haystack).

(** [sep.join(xs)] *)
Fixpoint join (sep : string) (xs : list string) : string :=
  match xs with
  | [] => ""
  | [x] => x
  | x :: xs' => x +:+ sep +:+ join sep xs'
  end.

(** Code-point order on strings, as Python's [<] on [str]. *)
Fixpoint ltb_l (a b : list ascii) : bool :=
  match a, b with
  | [], [] => false
  | [], _ :: _ => true
  | _ :: _, [] => false
  | x :: a', y :: b' =>
      let nx := nat_of_ascii x in let ny := nat_of_ascii y in
      if (nx <? ny)%nat then true else if (ny <? nx)%nat then false else ltb_l a' b'
  end.

Definition str_ltb (a b : string) : bool :=
  ltb_l (list_ascii_of_string a) (list_ascii_of_string b).

Fixpoint insert_sorted (x : string) (l : list string) : list string :=
  match l with
  | [] => [x]
  | y :: l' => if str_ltb y x then y :: insert_sorted x l' else x :: l
  end.

(** [sorted(xs)] for a list of strings *)
Definition sorted (l : list string) : list string := fold_right insert_sorted [] l.

End Py.

(* ------------------------------------------------------------------ *)
(** ** Cell values and Python [str()] *)

(** A spreadsheet cell value as openpyxl returns it: [None], a string,
    a number, or a [datetime] (date cells, and the result of
    [coerce_date]). *)
Inductive cell :=
  | VNone
  | VStr (s : string)
  | VNum (z : Z)
  | VDate (year month day : Z).

Definition pad2 (z : Z) : string :=
  let s := pretty z in if (Z.abs z <? 10)%Z then "0" +:+ s else s.

(** [str(value)] *)
Definition py_str (v : cell) : string :=
  match v with
  | VNone => "None"
  | VStr s => s
  | VNum z => pretty z
  | VDate y m d => pretty y +:+ "-" +:+ pad2 m +:+ "-" +:+ pad2 d +:+ " 00:00:00"
  end.

(** [value in (None, "")] *)
Definition is_blank (v : cell) : bool :=
  match v with VNone => true | VStr s => String.eqb s "" | _ => false end.

(** [value is None or str(value).strip() == ""] *)
Definition is_empty_value (v : cell) : bool :=
  match v with VNone => true | _ => String.eqb (Py.strip (py_str v)) "" end.

(** [value or ""]: the falsy cell values are replaced by [""]. *)
Definition or_empty (v : cell) : cell :=
  match v with
  | VNone => VStr ""
  | VNum 0 => VStr ""
  | _ => v
  end.

(* ------------------------------------------------------------------ *)
(** ** Normalizers (docctl.py lines 64-91) *)

(** [normalize_header(value)] on a string *)
Definition normalize_header (value : string) : string :=
  Py.upper (Py.rstrip_semi (Py.strip value)).

(** [normalize_header] applied to a cell value: anything but a [str]
    has no [.strip] and raises [AttributeError]. *)
Definition normalize_header_cell (v : cell) : option string :=
  match v with VStr s => Some (normalize_header s) | _ => None end.

Inductive row_error :=
  | MissingRequiredField
  | EmptyField (what : string)
  | DuplicateVersion
  | InvalidDate.

(** [normalize_version(value)] *)
Definition normalize_version (v : cell) : row_error + string :=
  if is_empty_value v then inl (EmptyField "VERSION") else inr (Py.strip (py_str v)).

(** [normalize_doc_number(value)] *)
Definition normalize_doc_number (v : cell) : row_error + string :=
  if is_empty_value v then inl (EmptyField "DOCUMENT NUMBER 1")
  else inr (Py.lower (Py.strip (py_str v))).

(* ------------------------------------------------------------------ *)
(** ** Dicts, directories and sheets *)

(** A Python dict with string keys, in insertion order.  Assigning to a
    present key keeps its position and replaces its value. *)
Fixpoint dict_set {V} (k : string) (v : V) (d : list (string * V)) : list (string * V) :=
  match d with
  | [] => [(k, v)]
  | (k', v') :: d' => if String.eqb k k' then (k', v) :: d' else (k', v') :: dict_set k v d'
  end.

Fixpoint dict_get {V} (k : string) (d : list (string * V)) : option V :=
  match d with
  | [] => None
  | (k', v') :: d' => if String.eqb k k' then Some v' else dict_get k d'
  end.

(** A manifest row: normalized header -> raw cell value. *)
Definition record := list (string * cell).

(** [record.get(k)] *)
Definition rget (r : record) (k : string) : cell :=
  match dict_get k r with Some v => v | None => VNone end.

(** Directory entries.  A transmittal directory and the Current Files
    mirror map entry names to entries; a destination root also holds
    the transmittal directories moved into it. *)
Inductive entry := File (content : string) | Dir.

Inductive node := Leaf (e : entry) | Moved (contents : gmap string entry).

(** A worksheet: its rows from row 1 on, each as [iter_rows] yields it. *)
Definition sheet := list (list cell).

(** [next(sheet.iter_rows(min_row=1, max_row=1))]: an empty worksheet
    still yields the single cell A1 holding [None]. *)
Definition sheet_header (sh : sheet) : list cell :=
  match sh with [] => [VNone] | h :: _ => h end.

(** [sheet.iter_rows(min_row=2)] *)
Definition sheet_body (sh : sheet) : list (list cell) := tl sh.

Definition EXPECTED_HEADERS : list string :=
  ["TRANSMITTAL NUMBER"; "TRANSMITTAL NAME"; "DATE"; "ITEM"; "DOCUMENT NUMBER 1";
   "DOCUMENT NUMBER 2"; "TITLE"; "VERSION"; "DOCUMENT STATE"; "ISSUE OBJECTIVE";
   "HOLD LIST"; "ISSUED BY"; "ISSUED TO"].

Definition DATABASE_HEADERS : list string := (EXPECTED_HEADERS ++ ["FILENAMES"])%list.

(** [REQUIRED_FIELDS] is a Python set; the loop over it raises on the
    first empty field met, in hash order.  Which field is named does not
    matter for acceptance, so the model only records that one is empty. *)
Definition REQUIRED_FIELDS : list string :=
  ["TRANSMITTAL NUMBER"; "DATE"; "ITEM"; "DOCUMENT NUMBER 1"; "TITLE"; "VERSION"].

Record trow := {
  raw : record;
  normalized_doc : string;
  normalized_version : string;
  filenames : list string }.

(* ------------------------------------------------------------------ *)
(** ** Reading the manifest (lines 94-122) *)

Definition is_none_cell (v : cell) : bool := match v with VNone => true | _ => false end.

(** [{normalize_header(header): cell.value for cell, header in zip(row, headers)}]
    built by successive assignments *)
Definition make_record (hs : list string) (row : list cell) : record :=
  fold_left (fun r '(c, h) => dict_set h c r) (combine row hs) [].

(** [read_sheet_rows(sheet)]; [None] when it raises. *)
Definition read_sheet_rows (sh : sheet) : option (list record) :=
  let headers := sheet_header sh in
  if existsb is_none_cell headers then None else
  match mapM normalize_header_cell headers with
  | None => None
  | Some hs =>
      if forallb (fun e => bool_decide (e ∈ hs)) EXPECTED_HEADERS then
        Some (map (make_record hs)
                  (List.filter (fun row => negb (forallb is_blank row)) (sheet_body sh)))
      else None
  end.

(** [find_matching_files(transmittal_dir, doc_number, log_file)] *)
Definition find_matching_files (tdir : gmap string entry) (doc_number log_name : string)
  : list string :=
  Py.sorted (map fst (List.filter
    (fun '(n, e) =>
       if String.eqb n log_name then false
       else match e with Dir => false | File _ => Py.contains doc_number (Py.lower n) end)
    (map_to_list tdir))).

(* ------------------------------------------------------------------ *)
(** ** Persistent tables (lines 125-190) *)

(** [[normalize_header(c.value or "") for c in header_row]] *)
Definition stored_headers (sh : sheet) : option (list string) :=
  mapM (fun c => normalize_header_cell (or_empty c)) (sheet_header sh).

(** [ensure_workbook(path, headers)]: [t] is [None] when the file does
    not exist. *)
Definition ensure_workbook (t : option sheet) (headers : list string) : option sheet :=
  match t with
  | Some sh =>
      match stored_headers sh with
      | Some hs => if bool_decide (hs = map normalize_header headers) then Some sh else None
      | None => None
      end
  | None => Some [map VStr headers]
  end.

(** [{h: idx for idx, h in enumerate(headers)}[k]]: the last index wins. *)
Fixpoint header_index_go (k : string) (hs : list string) (i : nat) (acc : option nat)
  : option nat :=
  match hs with
  | [] => acc
  | h :: hs' => header_index_go k hs' (S i) (if String.eqb h k then Some i else acc)
  end.

Definition header_index (k : string) (hs : list string) : option nat :=
  header_index_go k hs 0 None.

Definition lev_step (i j : nat) (acc : option (gset (string * string))) (row : list cell)
  : option (gset (string * string)) :=
  match acc with
  | None => None
  | Some seen =>
      match nth_error row i, nth_error row j with
      | Some doc_val, Some ver_val =>
          if is_blank doc_val || is_blank ver_val then Some seen
          else match normalize_doc_number doc_val, normalize_version ver_val with
               | inr d, inr v => Some ({[(d, Py.lower v)]} ∪ seen)
               | _, _ => None
               end
      | _, _ => None
      end
  end.

(** [load_existing_versions(db_path)]; [None] when it raises. *)
Definition load_existing_versions (db : option sheet) : option (gset (string * string)) :=
  match db with
  | None => Some ∅
  | Some sh =>
      match stored_headers sh with
      | None => None
      | Some hs =>
          match header_index "DOCUMENT NUMBER 1" hs, header_index "VERSION" hs with
          | Some i, Some j => fold_left (lev_step i j) (sheet_body sh) (Some ∅)
          | _, _ => None
          end
      end
  end.

(** The history row written for one validated row. *)
Definition history_row (r : trow) : list cell :=
  (map (rget (raw r)) EXPECTED_HEADERS ++ [VStr (Py.join "; " (filenames r))])%list.

(** [append_to_database(db_path, rows)] *)
Definition append_to_database (db : option sheet) (rows : list trow) : option sheet :=
  match ensure_workbook db DATABASE_HEADERS with
  | None => None
  | Some sh => Some (sh ++ map history_row rows)%list
  end.

(** [{normalize_header(h.value): cell.value for h, cell in zip(sheet[1], row)}] *)
Definition index_record (hdr row : list cell) : option record :=
  fold_left (fun acc '(h, c) =>
               match acc, normalize_header_cell h with
               | Some r, Some k => Some (dict_set k c r)
               | _, _ => None
               end)
            (combine hdr row) (Some []).

(** One iteration of the loop reading the stored Latest-Version Index
    into [existing]. *)
Definition index_load_step (hdr : list cell) (acc : option (list (string * record)))
  (row : list cell) : option (list (string * record)) :=
  match acc with
  | None => None
  | Some existing =>
      if forallb is_blank row then Some existing
      else match index_record hdr row with
           | None => None
           | Some rec =>
               match normalize_doc_number (rget rec "DOCUMENT NUMBER 1") with
               | inl _ => None
               | inr doc_key => Some (dict_set doc_key rec existing)
               end
           end
  end.

(** The row written back for a record: [[record.get(h) for h in EXPECTED_HEADERS]]. *)
Definition index_row (kr : string * record) : list cell :=
  map (rget kr.2) EXPECTED_HEADERS.

(** [update_document_list(doc_list_path, rows)]: the header row is kept,
    every data row is deleted and the merged mapping is written back in
    its iteration order. *)
Definition update_document_list (dl : option sheet) (rows : list trow) : option sheet :=
  match ensure_workbook dl EXPECTED_HEADERS with
  | None => None
  | Some sh =>
      match fold_left (index_load_step (sheet_header sh)) (sheet_body sh) (Some []) with
      | None => None
      | Some existing =>
          let merged := fold_left (fun e r => dict_set (normalized_doc r) (raw r) e) rows existing in
          Some (sheet_header sh :: map index_row merged)
      end
  end.

(* ------------------------------------------------------------------ *)
(** ** Current Files synchronizer (lines 204-227) *)

Definition is_file (e : entry) : bool := match e with File _ => true | Dir => false end.

(** The deletion loop for one document: every regular file whose
    lower-cased name contains [doc_key] is unlinked. *)
Definition remove_matching (doc_key : string) (cur : gmap string entry) : gmap string entry :=
  filter (fun ne : string * entry =>
            negb (is_file ne.2 && Py.contains doc_key (Py.lower ne.1)) = true) cur.

(** [shutil.copy2(transmittal_dir / fname, current_dir / fname)] guarded
    by [src.exists()].  A missing source is skipped; a directory source
    makes [copy2] raise; a directory at the destination receives the copy
    inside it, so the mirror's own listing is unchanged. *)
Definition copy_file (tdir cur : gmap string entry) (fname : string)
  : option (gmap string entry) :=
  match tdir !! fname with
  | None => Some cur
  | Some Dir => None
  | Some (File c) =>
      match cur !! fname with
      | Some Dir => Some cur
      | _ => Some (<[fname := File c]> cur)
      end
  end.

Fixpoint copy_files (tdir cur : gmap string entry) (fs : list string)
  : option (gmap string entry) :=
  match fs with
  | [] => Some cur
  | f :: fs' =>
      match copy_file tdir cur f with
      | None => None
      | Some cur' => copy_files tdir cur' fs'
      end
  end.

(** The loop of [sync_current_files] with [processed_docs]. *)
Fixpoint sync_rows (tdir : gmap string entry) (processed : list string)
  (cur : gmap string entry) (rows : list trow) : option (gmap string entry) :=
  match rows with
  | [] => Some cur
  | r :: rs =>
      let d := normalized_doc r in
      let seen := bool_decide (d ∈ processed) in
      let cur1 := if seen then cur else remove_matching d cur in
      match copy_files tdir cur1 (filenames r) with
      | None => None
      | Some cur2 => sync_rows tdir (if seen then processed else d :: processed) cur2 rs
      end
  end.

(** [sync_current_files(current_dir, transmittal_dir, rows, logger)];
    [None] when an exception escapes. *)
Definition sync_current_files (cur tdir : gmap string entry) (rows : list trow)
  : option (gmap string entry) :=
  sync_rows tdir [] cur rows.

(* ------------------------------------------------------------------ *)
(** ** Relocator (lines 193-201) *)

(** The [while candidate.exists()] loop from [counter]; [fuel] bounds
    the iterations (see [free_name_some] for why [size dest] suffices). *)
Fixpoint probe (dest : gmap string node) (name : string) (counter fuel : nat)
  : option string :=
  match fuel with
  | O => None
  | S f =>
      let cand := name +:+ "-" +:+ pretty counter in
      match dest !! cand with
      | Some _ => probe dest name (S counter) f
      | None => Some cand
      end
  end.

Definition free_name (dest : gmap string node) (name : string) : option string :=
  match dest !! name with
  | None => Some name
  | Some _ => probe dest name 1 (size dest)
  end.

(** [move_transmittal(src, dest_root)]: the chosen name and the new root. *)
Definition move_transmittal (name : string) (contents : gmap string entry)
  (dest : gmap string node) : option (string * gmap string node) :=
  match free_name dest name with
  | None => None
  | Some c => Some (c, <[c := Moved contents]> dest)
  end.

(* ------------------------------------------------------------------ *)
(** ** Project state and [process_transmittal] (lines 230-288) *)

(** The project root: the two persistent tables ([None] when the file
    does not exist), the Current Files mirror, the pending transmittals
    and the two destination roots. *)
Record project := {
  db : option sheet;
  doc_list : option sheet;
  current : gmap string entry;
  pending : gmap string (gmap string entry);
  accepted : gmap string node;
  rejected : gmap string node }.

Definition set_db (x : option sheet) (st : project) : project :=
  {| db := x; doc_list := doc_list st; current := current st; pending := pending st;
     accepted := accepted st; rejected := rejected st |}.
Definition set_doc_list (x : option sheet) (st : project) : project :=
  {| db := db st; doc_list := x; current := current st; pending := pending st;
     accepted := accepted st; rejected := rejected st |}.
Definition set_current (x : gmap string entry) (st : project) : project :=
  {| db := db st; doc_list := doc_list st; current := x; pending := pending st;
     accepted := accepted st; rejected := rejected st |}.

Inductive verdict := Accepted | Rejected.

(** [Finished]: the transmittal was relocated; [Aborted]: an exception
    escaped [process_transmittal] and ended the run, with the state as the
    writes done so far left it. *)
Inductive outcome :=
  | Finished (v : verdict) (st : project)
  | Aborted (st : project).

Fixpoint oks (outs : list (row_error + trow)) : list trow :=
  match outs with
  | [] => []
  | inr v :: o => v :: oks o
  | inl _ :: o => oks o
  end.

Fixpoint errs (outs : list (row_error + trow)) : list row_error :=
  match outs with
  | [] => []
  | inl e :: o => e :: errs o
  | inr _ :: o => errs o
  end.

Section Transmittal.

(** The two external parsers: dateutil's [parser.parse] (a date, or
    [None] when it raises) and openpyxl's [load_workbook(...).active]
    (the worksheet of a file's bytes, or [None] when it raises). *)
Context (date_parser_parse : string -> option (Z * Z * Z)).
Context (load_workbook : string -> option sheet).

(** [coerce_date(value)] *)
Definition coerce_date (value : cell) : row_error + cell :=
  match value with
  | VDate _ _ _ => inr value
  | VNone => inl (EmptyField "DATE")
  | _ =>
      let text := Py.strip (py_str value) in
      if String.eqb text "" then inl (EmptyField "DATE")
      else match date_parser_parse text with
           | Some (y, m, d) => inr (VDate y m d)
           | None => inl InvalidDate
           end
  end.

(** The body of the [for idx, raw in enumerate(raw_rows)] loop: one row
    validated against the index [existing_versions]. *)
Definition validate_row (tdir : gmap string entry) (log_name : string)
  (existing_versions : gset (string * string)) (r : record) : row_error + trow :=
  if existsb (fun f => is_empty_value (rget r f)) REQUIRED_FIELDS then inl MissingRequiredField
  else match normalize_doc_number (rget r "DOCUMENT NUMBER 1") with
  | inl e => inl e
  | inr nd =>
      match normalize_version (rget r "VERSION") with
      | inl e => inl e
      | inr nv =>
          if bool_decide ((nd, Py.lower nv) ∈ existing_versions) then inl DuplicateVersion
          else match coerce_date (rget r "DATE") with
               | inl e => inl e
               | inr d =>
                   inr {| raw := dict_set "DATE" d r;
                          normalized_doc := nd;
                          normalized_version := nv;
                          filenames := find_matching_files tdir nd log_name |}
               end
      end
  end.

Definition validate_rows (tdir : gmap string entry) (log_name : string)
  (existing_versions : gset (string * string)) (raw_rows : list record)
  : list (row_error + trow) :=
  map (validate_row tdir log_name existing_versions) raw_rows.

(** [move_transmittal(transmittal_dir, project_paths["rejected"])] *)
Definition reject (name : string) (tdir : gmap string entry) (st : project) : outcome :=
  match move_transmittal name tdir (rejected st) with
  | None => Aborted st
  | Some (_, rej) =>
      Finished Rejected
        {| db := db st; doc_list := doc_list st; current := current st;
           pending := delete name (pending st); accepted := accepted st; rejected := rej |}
  end.

(** The acceptance branch, after validation succeeded. *)
Definition accept (name : string) (tdir : gmap string entry)
  (processed_rows : list trow) (st : project) : outcome :=
  match append_to_database (db st) processed_rows with
  | None => Aborted st
  | Some db' =>
      let st1 := set_db (Some db') st in
      match update_document_list (doc_list st1) processed_rows with
      | None => Aborted st1
      | Some dl' =>
          let st2 := set_doc_list (Some dl') st1 in
          match sync_current_files (current st2) tdir processed_rows with
          | None => Aborted st2
          | Some cur' =>
              let st3 := set_current cur' st2 in
              match move_transmittal name tdir (accepted st3) with
              | None => Aborted st3
              | Some (_, acc) =>
                  Finished Accepted
                    {| db := db st3; doc_list := doc_list st3; current := current st3;
                       pending := delete name (pending st3); accepted := acc;
                       rejected := rejected st3 |}
              end
          end
      end
  end.

(** The rows of the manifest file [log], or [None] when reading raises. *)
Definition read_manifest (log : entry) : option (list record) :=
  match log with
  | File c => match load_workbook c with Some sh => read_sheet_rows sh | None => None end
  | Dir => None
  end.

(** [process_transmittal(transmittal_dir, project_paths, logger)] for the
    pending directory [name] with contents [tdir]. *)
Definition process_transmittal (name : string) (tdir : gmap string entry) (st : project)
  : outcome :=
  let log_name := name +:+ ".xlsx" in
  match tdir !! log_name with
  | None => reject name tdir st
  | Some log =>
      match load_existing_versions (db st) with
      | None => Aborted st
      | Some existing_versions =>
          match read_manifest log with
          | None => reject name tdir st
          | Some raw_rows =>
              let outs := validate_rows tdir log_name existing_versions raw_rows in
              let processed_rows := oks outs in
              let errors := errs outs in
              match processed_rows, errors with
              | [], _ => reject name tdir st
              | _, _ :: _ => reject name tdir st
              | _ :: _, [] => accept name tdir processed_rows st
              end
          end
      end
  end.

End Transmittal.

(* ------------------------------------------------------------------ *)
(** ** [process_project] (lines 310-322) *)

(** [Completed]: every transmittal of the list was processed; [Stopped]:
    an exception escaped [process_transmittal] and ended the run. *)
Inductive run_outcome :=
  | Completed (st : project)
  | Stopped (st : project).

(** [for transmittal in sorted(transmittals): process_transmittal(...)].
    A name whose directory is gone would make [shutil.move] raise; the
    names come from the pending root itself, so this does not occur. *)
Fixpoint run_pending (dp : string -> option (Z * Z * Z)) (lw : string -> option sheet)
  (names : list string) (st : project) : run_outcome :=
  match names with
  | [] => Completed st
  | n :: ns =>
      match pending st !! n with
      | None => Stopped st
      | Some tdir =>
          match process_transmittal dp lw n tdir st with
          | Finished _ st' => run_pending dp lw ns st'
          | Aborted st' => Stopped st'
          end
      end
  end.

(** [process_project(root)]: the pending directories, listed once and
    taken in sorted order; with none, the run ends at once. *)
Definition process_project (dp : string -> option (Z * Z * Z)) (lw : string -> option sheet)
  (st : project) : run_outcome :=
  run_pending dp lw (Py.sorted (map fst (map_to_list (pending st)))) st.

(* ------------------------------------------------------------------ *)
(** ** Readings of the specification, for comparison with the code *)

(** Header normalization as the specification words it: trim, remove
    exactly one trailing semicolon when there is one, uppercase. *)
Definition normalize_header_one_semi (s : string) : string :=
  let l := list_ascii_of_string (Py.strip s) in
  Py.upper (string_of_list_ascii
              (match rev l with
               | c :: r => if Py.is_semi c then rev r else l
               | [] => l
               end)).

(** The [k]-th renamed candidate [f"{src.name}-{counter}"]. *)
Definition candidate (name : string) (k : nat) : string := name +:+ "-" +:+ pretty k.

(* ------------------------------------------------------------------ *)
(** ** Concrete inputs *)

(** A date parser that rejects every text (the inputs below carry
    [datetime] cells, which [coerce_date] passes through). *)
Definition no_date_parser : string -> option (Z * Z * Z) := fun _ => None.

(** A manifest data row in the column order of [EXPECTED_HEADERS]. *)
Definition manifest_cells (doc ver title : cell) : list cell :=
  [VStr "TR-1"; VStr "Issue"; VDate 2024 3 1; VNum 1; doc; VNone; title; ver;
   VNone; VNone; VNone; VNone; VNone].

Definition manifest_record (doc ver title : cell) : record :=
  make_record EXPECTED_HEADERS (manifest_cells doc ver title).

(** [load_workbook] over a fixed set of files, by content. *)
Definition workbooks (files : list (string * sheet)) : string -> option sheet :=
  fun c => dict_get c files.

Definition empty_project : project :=
  {| db := None; doc_list := None; current := ∅; pending := ∅;
     accepted := ∅; rejected := ∅ |}.

(** A history table holding the pair (spec-100, b). *)
Definition history_spec100_b : sheet :=
  [map VStr DATABASE_HEADERS;
   [VStr "TR-0"; VStr "First issue"; VDate 2023 5 2; VNum 1; VStr "spec-100"; VNone;
    VStr "Spec"; VStr "b"; VNone; VNone; VNone; VNone; VNone; VStr ""]].

(** A pending transmittal [T1] whose manifest has one row for SPEC-100. *)
Definition t1_dir : gmap string entry :=
  {[ "T1.xlsx" := File "m1"; "SPEC-100.pdf" := File "pdf" ]}.

Definition t1_workbooks : string -> option sheet :=
  workbooks [("m1", [map VStr EXPECTED_HEADERS;
                     manifest_cells (VStr "SPEC-100") (VStr "B") (VStr "Spec")])].

(** The SPEC-100 version B manifest row. *)
Definition spec100_b : record := manifest_record (VStr "SPEC-100") (VStr "B") (VStr "Spec").

(** A pending transmittal [T2] whose manifest repeats the SPEC-100
    version B row. *)
Definition dup_dir : gmap string entry :=
  {[ "T2.xlsx" := File "dup"; "SPEC-100.pdf" := File "pdf" ]}.

Definition dup_workbooks : string -> option sheet :=
  workbooks [("dup", [map VStr EXPECTED_HEADERS;
                      manifest_cells (VStr "SPEC-100") (VStr "B") (VStr "Spec");
                      manifest_cells (VStr "SPEC-100") (VStr "B") (VStr "Spec")])].

(** A Latest-Version Index whose SPEC-100 row is at version C. *)
Definition index_spec100_c : sheet :=
  [map VStr EXPECTED_HEADERS; manifest_cells (VStr "SPEC-100") (VStr "C") (VStr "Spec")].

(** Two transmittals for document D: [T1] brings [a.pdf] at version 1,
    [T2] brings [b.pdf] at version 2 (both names contain [d]). *)
Definition d_dir1 : gmap string entry :=
  {[ "T1.xlsx" := File "d1"; "a.pdf" := File "rev 1" ]}.

Definition d_dir2 : gmap string entry :=
  {[ "T2.xlsx" := File "d2"; "b.pdf" := File "rev 2" ]}.

Definition d_workbooks : string -> option sheet :=
  workbooks [("d1", [map VStr EXPECTED_HEADERS; manifest_cells (VStr "D") (VStr "1") (VStr "Doc")]);
             ("d2", [map VStr EXPECTED_HEADERS; manifest_cells (VStr "D") (VStr "2") (VStr "Doc")])].

(** A project root with [T1] and [T2] pending: [T2] resubmits the
    SPEC-100 version B row that [T1] brings. *)
Definition two_workbooks : string -> option sheet :=
  fun c => match t1_workbooks c with Some sh => Some sh | None => dup_workbooks c end.

Definition two_pending : project :=
  {| db := None; doc_list := None; current := ∅;
     pending := {[ "T1" := t1_dir; "T2" := dup_dir ]};
     accepted := ∅; rejected := ∅ |}.

(** The state [process_project] leaves it in. *)
Definition two_processed : project :=
  Eval vm_compute in
    match process_project no_date_parser two_workbooks two_pending with
    | Completed st => st
    | Stopped st => st
    end.

(** The same root with a History Table lacking the VERSION column. *)
Definition broken_pending : project :=
  {| db := Some [[VStr "DOCUMENT NUMBER 1"]]; doc_list := None; current := ∅;
     pending := {[ "T1" := t1_dir; "T2" := dup_dir ]};
     accepted := ∅; rejected := ∅ |}.

(** The project after [T1] alone is accepted. *)
Definition t1_processed : project :=
  Eval vm_compute in
    match process_transmittal no_date_parser t1_workbooks "T1" t1_dir empty_project with
    | Finished _ st => st
    | Aborted st => st
    end.

(** A mirror holding a directory and an older file for SPEC-100. *)
Definition mirror_with_dir : gmap string entry :=
  {[ "spec-100 old" := Dir; "SPEC-100-a.pdf" := File "old" ]}.

(** A date parser that knows one ISO date. *)
Definition iso_date_parser : string -> option (Z * Z * Z) :=
  fun s => if String.eqb s "2024-03-01" then Some (2024%Z, 3%Z, 1%Z) else None.

(** A SPEC-100 manifest row whose DATE is text. *)
Definition text_date_record : record :=
  make_record EXPECTED_HEADERS
    [VStr "TR-1"; VStr "Issue"; VStr " 2024-03-01 "; VNum 1; VStr "SPEC-100"; VNone;
     VStr "Spec"; VStr "B"; VNone; VNone; VNone; VNone; VNone].

Definition no_row : trow :=
  {| raw := []; normalized_doc := ""; normalized_version := ""; filenames := [] |}.

Definition text_date_validated : trow :=
  Eval vm_compute in
    match validate_row iso_date_parser t1_dir "T1.xlsx" ∅ text_date_record with
    | inr v => v
    | inl _ => no_row
    end.

(** A Latest-Version Index with rows for SPEC-100 and SPEC-200. *)
Definition index_two_docs : sheet :=
  [map VStr EXPECTED_HEADERS;
   manifest_cells (VStr "SPEC-100") (VStr "A") (VStr "Spec");
   manifest_cells (VStr "SPEC-200") (VStr "A") (VStr "Other")].

Definition index_two_docs_updated : sheet :=
  Eval vm_compute in
    match update_document_list (Some index_two_docs)
            (oks (validate_rows no_date_parser t1_dir "T1.xlsx" ∅ [spec100_b])) with
    | Some sh => sh
    | None => []
    end.

(** A manifest with lower-case headers and a blank row. *)
Definition lower_header_manifest : sheet :=
  [map VStr (map Py.lower EXPECTED_HEADERS);
   manifest_cells (VStr "SPEC-100") (VStr "B") (VStr "Spec");
   [VNone; VStr ""]].

(** A manifest without the ISSUED TO column. *)
Definition short_header_workbooks : string -> option sheet :=
  workbooks [("m1", [map VStr (removelast EXPECTED_HEADERS);
                     removelast (manifest_cells (VStr "SPEC-100") (VStr "B") (VStr "Spec"))])].

(** A history table with only the two columns the Version History Index
    reads, one data row and one blank row. *)
Definition partial_history : sheet :=
  [[VStr "DOCUMENT NUMBER 1"; VStr "VERSION"];
   [VStr "SPEC-100"; VStr " B "];
   [VNone; VStr ""]].

(** The SPEC-100 row with its version written with surrounding spaces. *)
Definition spec100_b_padded : record := manifest_record (VStr "SPEC-100") (VStr " B ") (VStr "Spec").

Definition validated_spec100_b : trow :=
  Eval vm_compute in
    match validate_row iso_date_parser t1_dir "T1.xlsx" ∅ spec100_b with
    | inr v => v
    | inl _ => no_row
    end.

(** The destination root of a relocated transmittal. *)
Definition destination (v : verdict) (st : project) : gmap string node :=
  match v with Accepted => accepted st | Rejected => rejected st end.

(* ================================================================== *)
(** * Properties *)

(** ** String helpers *)

Lemma drop_while_split (p : ascii -> bool) (l : list ascii) :
  exists pre, l = (pre ++ Py.drop_while p l)%list /\ Forall (fun c => p c = true) pre /\
    match Py.drop_while p l with c :: _ => p c = false | [] => True end.
Proof.
  induction l as [|c l IH]; simpl.
  - exists []. auto.
  - destruct (p c) eqn:Hc.
    + destruct IH as (pre & Hl & Hf & Hh). exists (c :: pre).
      split; [simpl; congruence | auto].
    + exists []. simpl. auto.
Qed.

Lemma rdrop_while_split (p : ascii -> bool) (l : list ascii) :
  exists suf, l = (Py.rdrop_while p l ++ suf)%list /\ Forall (fun c => p c = true) suf /\
    forall u x, Py.rdrop_while p l = (u ++ [x])%list -> p x = false.
Proof.
  unfold Py.rdrop_while.
  destruct (drop_while_split p (rev l)) as (pre & Hl & Hf & Hh).
  exists (rev pre). split; [|split].
  - rewrite <- rev_app_distr, <- Hl, rev_involutive. reflexivity.
  - apply Forall_rev. exact Hf.
  - intros u x Hu. destruct (Py.drop_while p (rev l)) as [|c r] eqn:Hd.
    + simpl in Hu. destruct u; discriminate.
    + simpl in Hu. apply app_inj_tail in Hu as [_ ->]. exact Hh.
Qed.

Lemma all_semis_repeat (l : list ascii) :
  Forall (fun c => Py.is_semi c = true) l -> l = repeat ";"%char (List.length l).
Proof.
  induction 1 as [|c l Hc _ IH]; simpl; [reflexivity|].
  unfold Py.is_semi in Hc. apply Ascii.eqb_eq in Hc. subst. f_equal. exact IH.
Qed.

(** ** Relocation candidates *)

Lemma string_app_empty_r (s : string) : s +:+ "" = s.
Proof.
  induction s as [|a s IH]; [reflexivity|].
  change (String a (s +:+ "") = String a s). by rewrite IH.
Qed.

Lemma candidate_ne_name (name : string) (k : nat) : candidate name k <> name.
Proof.
  unfold candidate. intros H.
  rewrite <- (string_app_empty_r name) in H at 2.
  apply (inj (String.append name)) in H. discriminate.
Qed.

Lemma candidate_inj (name : string) (i j : nat) : candidate name i = candidate name j -> i = j.
Proof.
  unfold candidate. intros H.
  apply (inj (String.append name)) in H. simpl in H. injection H as H.
  exact (pretty_nat_inj _ _ H).
Qed.

Lemma probe_some (dest : gmap string node) (name : string) (f k : nat) (c : string) :
  probe dest name k f = Some c ->
  exists j, k <= j /\ c = candidate name j /\ dest !! c = None /\
    forall i, k <= i < j -> is_Some (dest !! candidate name i).
Proof.
  revert k. induction f as [|f IH]; intros k H; simpl in H; [discriminate|].
  destruct (dest !! (name +:+ "-" +:+ pretty k)) eqn:Hd.
  - destruct (IH (S k) H) as (j & Hj & -> & Hn & Hall).
    exists j. repeat split; [lia|exact Hn|].
    intros i Hi. destruct (decide (i = k)) as [->|Hne].
    + unfold candidate. rewrite Hd. eauto.
    + apply Hall. lia.
  - injection H as <-. exists k. repeat split; [lia|exact Hd|]. intros i Hi. lia.
Qed.

Lemma probe_none (dest : gmap string node) (name : string) (f k : nat) :
  probe dest name k f = None ->
  forall i, k <= i < k + f -> is_Some (dest !! candidate name i).
Proof.
  revert k. induction f as [|f IH]; intros k H i Hi; [lia|]. simpl in H.
  destruct (dest !! (name +:+ "-" +:+ pretty k)) eqn:Hd; [|discriminate].
  destruct (decide (i = k)) as [->|Hne].
  - unfold candidate. rewrite Hd. eauto.
  - apply (IH (S k) H). lia.
Qed.

(** The loop bound [size dest] always suffices: [name] and the [size dest]
    candidates [name-1 .. name-n] are pairwise distinct, so they cannot
    all be taken in a root of [size dest] entries. *)
Lemma free_name_some (dest : gmap string node) (name : string) :
  is_Some (free_name dest name).
Proof.
  unfold free_name. destruct (dest !! name) eqn:Hn; [|eauto].
  destruct (probe dest name 1 (size dest)) eqn:Hp; [eauto|exfalso].
  pose proof (probe_none dest name (size dest) 1 Hp) as Hall.
  set (L := name :: map (candidate name) (seq 1 (size dest))).
  assert (HND : NoDup L).
  { constructor.
    - intros Hin. apply list_elem_of_In, in_map_iff in Hin as (k & Hk & _).
      exact (candidate_ne_name name k Hk).
    - apply NoDup_fmap_2; [intros i j; apply candidate_inj|]. apply NoDup_seq. }
  assert (Hsub : list_to_set (C:=gset string) L ⊆ dom dest).
  { intros x Hx. apply elem_of_list_to_set in Hx. apply elem_of_dom.
    apply list_elem_of_In in Hx. destruct Hx as [<-|Hx]; [rewrite Hn; eauto|].
    apply in_map_iff in Hx as (k & <- & Hk). apply in_seq in Hk. apply Hall. lia. }
  apply subseteq_size in Hsub. rewrite size_list_to_set in Hsub by exact HND.
  rewrite size_dom in Hsub. subst L. simpl in Hsub. rewrite length_map, length_seq in Hsub. lia.
Qed.

Lemma move_transmittal_spec (name : string) (contents : gmap string entry)
  (dest : gmap string node) :
  exists c, move_transmittal name contents dest = Some (c, <[c := Moved contents]> dest) /\
    dest !! c = None /\
    ((dest !! name = None /\ c = name) \/
     (is_Some (dest !! name) /\ exists k, 1 <= k /\ c = candidate name k /\
        forall i, 1 <= i < k -> is_Some (dest !! candidate name i))).
Proof.
  unfold move_transmittal. destruct (free_name_some dest name) as [c Hc]. rewrite Hc.
  exists c. split; [reflexivity|]. unfold free_name in Hc.
  destruct (dest !! name) eqn:Hn.
  - apply probe_some in Hc as (j & Hj & -> & Hfree & Hall).
    split; [exact Hfree|]. right. split; [eauto|]. exists j. auto.
  - injection Hc as <-. auto.
Qed.

(* ================================================================== *)
(** * Claims *)

(** ** Header normalization *)

(** C8 (counterexample): [normalize_header] does not remove exactly one
    trailing semicolon: ["A;;"] becomes ["A"], where removing one would
    give ["A;"]. *)
Lemma normalize_header_two_semicolons :
  normalize_header "A;;" = "A" /\ normalize_header_one_semi "A;;" = "A;" /\
  normalize_header "A;;" <> normalize_header_one_semi "A;;".
Proof. vm_compute. split; [reflexivity|]. split; [reflexivity|]. discriminate. Qed.

(** C8 (amended): header normalization trims surrounding whitespace,
    then removes every trailing semicolon (whitespace left before them is
    kept), then uppercases: the trimmed input is [t] followed by some
    number of semicolons, [t] does not end in a semicolon, and the result
    is [t] uppercased. *)
Theorem normalize_header_strips_trailing_semicolons (s : string) :
  exists t k,
    list_ascii_of_string (Py.strip s) = (list_ascii_of_string t ++ repeat ";"%char k)%list /\
    (forall u, list_ascii_of_string t <> (u ++ [";"%char])%list) /\
    normalize_header s = Py.upper t.
Proof.
  destruct (rdrop_while_split Py.is_semi (list_ascii_of_string (Py.strip s)))
    as (suf & Hl & Hf & Hlast).
  exists (Py.rstrip_semi (Py.strip s)), (List.length suf).
  unfold Py.rstrip_semi. rewrite list_ascii_of_string_of_list_ascii.
  split; [|split].
  - rewrite <- (all_semis_repeat suf Hf). exact Hl.
  - intros u Hu. apply Hlast in Hu. discriminate.
  - reflexivity.
Qed.

(** ** Relocation *)

(** C9: [move_transmittal] never overwrites: the chosen name is free in
    the destination root, the directory is stored under it and every
    other entry is unchanged; the name is [X] when [X] is free, and
    otherwise the first free one of [X-1], [X-2], ... in increasing order.
    Relocating [X] into a root holding [X] gives [X-1]; relocating again
    gives [X-2]. *)
Theorem move_transmittal_never_overwrites (name : string) (contents : gmap string entry)
  (dest : gmap string node) :
  (exists c dest',
     move_transmittal name contents dest = Some (c, dest') /\
     dest !! c = None /\
     dest' !! c = Some (Moved contents) /\
     (forall n, n <> c -> dest' !! n = dest !! n) /\
     ((dest !! name = None /\ c = name) \/
      (is_Some (dest !! name) /\ exists k, 1 <= k /\ c = name +:+ "-" +:+ pretty k /\
         forall i, 1 <= i < k -> is_Some (dest !! (name +:+ "-" +:+ pretty i))))) /\
  (exists d1 d2,
     move_transmittal "X" contents {[ "X" := Leaf Dir ]} = Some ("X-1", d1) /\
     move_transmittal "X" contents d1 = Some ("X-2", d2)).
Proof.
  split.
  - destruct (move_transmittal_spec name contents dest) as (c & Hm & Hfree & Hname).
    exists c, (<[c := Moved contents]> dest). split; [exact Hm|]. split; [exact Hfree|].
    split; [apply lookup_insert_eq|]. split.
    + intros n Hn. by apply lookup_insert_ne.
    + exact Hname.
  - exists (<["X-1" := Moved contents]> {[ "X" := Leaf Dir ]}),
      (<["X-2" := Moved contents]> (<["X-1" := Moved contents]> {[ "X" := Leaf Dir ]})).
    split; vm_compute; reflexivity.
Qed.

(** ** Opening the persistent tables *)

Lemma header_index_go_none (k : string) (hs : list string) (i : nat) (acc : option nat) :
  header_index_go k hs i acc = None <-> acc = None /\ k ∉ hs.
Proof.
  revert i acc. induction hs as [|h hs IH]; intros i acc; simpl.
  - split; [intros ->; split; [reflexivity|apply not_elem_of_nil]|tauto].
  - rewrite IH, elem_of_cons. destruct (String.eqb h k) eqn:Hk.
    + apply String.eqb_eq in Hk. subst. split; [intros [? _]; discriminate|tauto].
    + apply String.eqb_neq in Hk. split.
      * intros [-> Hn]. split; [reflexivity|]. intros [->|Hin]; auto.
      * intros [-> Hn]. split; [reflexivity|]. auto.
Qed.

Lemma header_index_some (k : string) (hs : list string) :
  is_Some (header_index k hs) <-> k ∈ hs.
Proof.
  unfold header_index. rewrite <- not_eq_None_Some, header_index_go_none.
  split; [|tauto]. intros H. destruct (decide (k ∈ hs)); [assumption|tauto].
Qed.

Lemma lev_step_none (i j : nat) (rows : list (list cell)) :
  fold_left (lev_step i j) rows None = None.
Proof. induction rows; simpl; auto. Qed.

Lemma lev_step_blank (i j : nat) (row : list cell) (dv vv : cell)
  (acc : option (gset (string * string))) :
  nth_error row i = Some dv -> nth_error row j = Some vv ->
  (is_blank dv || is_blank vv) = true -> lev_step i j acc row = acc.
Proof.
  intros Hi Hj Hb. destruct acc as [seen|]; simpl; [|reflexivity].
  rewrite Hi, Hj, Hb. reflexivity.
Qed.

Lemma lev_step_whitespace (i j : nat) (row : list cell) (dv vv : cell)
  (acc : option (gset (string * string))) :
  nth_error row i = Some dv -> nth_error row j = Some vv ->
  is_blank dv = false -> is_blank vv = false ->
  (is_empty_value dv || is_empty_value vv) = true -> lev_step i j acc row = None.
Proof.
  intros Hi Hj Hd Hv He. destruct acc as [seen|]; simpl; [|reflexivity].
  rewrite Hi, Hj, Hd, Hv. simpl. unfold normalize_doc_number, normalize_version.
  destruct (is_empty_value dv); [reflexivity|]. simpl in He. rewrite He. reflexivity.
Qed.

Lemma lev_fold_some (i j : nat) (rows : list (list cell)) :
  forall seen,
  (forall row, In row rows -> exists dv vv, nth_error row i = Some dv /\ nth_error row j = Some vv /\
     ((is_blank dv || is_blank vv) = true \/
      (is_empty_value dv = false /\ is_empty_value vv = false))) ->
  exists idx, fold_left (lev_step i j) rows (Some seen) = Some idx.
Proof.
  induction rows as [|row rows IH]; intros seen Hall; cbn [fold_left]; [eauto|].
  destruct (Hall row (or_introl eq_refl)) as (dv & vv & Hi & Hj & Hc).
  assert (Hrest : forall row', In row' rows -> exists dv vv, nth_error row' i = Some dv /\
            nth_error row' j = Some vv /\ ((is_blank dv || is_blank vv) = true \/
            (is_empty_value dv = false /\ is_empty_value vv = false)))
    by (intros row' Hr; apply Hall; right; exact Hr).
  destruct Hc as [Hb|[Hd Hv]].
  - rewrite (lev_step_blank i j row dv vv _ Hi Hj Hb). exact (IH seen Hrest).
  - unfold lev_step at 2. rewrite Hi, Hj. unfold normalize_doc_number, normalize_version.
    rewrite Hd, Hv. destruct (is_blank dv || is_blank vv); apply IH; exact Hrest.
Qed.

(** C5 (counterexample): a history table whose header is only
    [DOCUMENT NUMBER 1 | VERSION] is read by [load_existing_versions]
    without error, although it differs from the fixed history header
    (which [ensure_workbook] rejects). *)
Lemma history_partial_header_read :
  load_existing_versions (Some [[VStr "DOCUMENT NUMBER 1"; VStr "VERSION"]]) = Some ∅ /\
  ensure_workbook (Some [[VStr "DOCUMENT NUMBER 1"; VStr "VERSION"]]) DATABASE_HEADERS = None.
Proof. split; vm_compute; reflexivity. Qed.

(** C5 (amended): writing to an existing History Table or Latest-Version
    Index fails unless its normalized header row equals the fixed header
    list of that table exactly; building the Version History Index only
    requires the normalized header to contain [DOCUMENT NUMBER 1] and
    [VERSION], and accepts any header that does. *)
Theorem table_header_checks (sh : sheet) :
  (forall rows, stored_headers sh <> Some (map normalize_header DATABASE_HEADERS) ->
     append_to_database (Some sh) rows = None) /\
  (forall rows, stored_headers sh <> Some (map normalize_header EXPECTED_HEADERS) ->
     update_document_list (Some sh) rows = None) /\
  (load_existing_versions (Some sh) <> None ->
     exists hs, stored_headers sh = Some hs /\ "DOCUMENT NUMBER 1" ∈ hs /\ "VERSION" ∈ hs) /\
  (forall hs, stored_headers sh = Some hs -> "DOCUMENT NUMBER 1" ∈ hs -> "VERSION" ∈ hs ->
     sheet_body sh = [] -> load_existing_versions (Some sh) = Some ∅) /\
  (forall hs, stored_headers sh = Some hs -> "DOCUMENT NUMBER 1" ∈ hs -> "VERSION" ∈ hs ->
     exists i j, header_index "DOCUMENT NUMBER 1" hs = Some i /\ header_index "VERSION" hs = Some j /\
       ((forall row, In row (sheet_body sh) ->
           exists dv vv, nth_error row i = Some dv /\ nth_error row j = Some vv /\
             ((is_blank dv || is_blank vv) = true \/
              (is_empty_value dv = false /\ is_empty_value vv = false))) ->
        exists idx, load_existing_versions (Some sh) = Some idx)).
Proof.
  split; [|split; [|split; [|split]]].
  - intros rows Hne. unfold append_to_database, ensure_workbook.
    destruct (stored_headers sh) as [hs|]; [|reflexivity].
    rewrite bool_decide_false by congruence. reflexivity.
  - intros rows Hne. unfold update_document_list, ensure_workbook.
    destruct (stored_headers sh) as [hs|]; [|reflexivity].
    rewrite bool_decide_false by congruence. reflexivity.
  - unfold load_existing_versions. destruct (stored_headers sh) as [hs|]; [|congruence].
    intros Hl. exists hs. split; [reflexivity|].
    destruct (header_index "DOCUMENT NUMBER 1" hs) eqn:Hi; [|congruence].
    destruct (header_index "VERSION" hs) eqn:Hj; [|congruence].
    split; apply header_index_some; eauto.
  - intros hs Hs Hd Hv Hb. unfold load_existing_versions. rewrite Hs, Hb.
    apply header_index_some in Hd as [i ->]. apply header_index_some in Hv as [j ->].
    reflexivity.
  - intros hs Hs Hd Hv.
    apply header_index_some in Hd as [i Hi]. apply header_index_some in Hv as [j Hj].
    exists i, j. split; [exact Hi|]. split; [exact Hj|].
    intros Hrows. unfold load_existing_versions. rewrite Hs, Hi, Hj.
    exact (lev_fold_some i j (sheet_body sh) ∅ Hrows).
Qed.

Lemma table_header_checks_witness :
  stored_headers partial_history = Some ["DOCUMENT NUMBER 1"; "VERSION"] /\
  load_existing_versions (Some partial_history) = Some {[("spec-100", "b")]} /\
  exists idx, load_existing_versions (Some partial_history) = Some idx.
Proof.
  assert (Hs : stored_headers partial_history = Some ["DOCUMENT NUMBER 1"; "VERSION"])
    by (vm_compute; reflexivity).
  split; [exact Hs|]. split; [vm_compute; reflexivity|].
  destruct (proj2 (proj2 (proj2 (proj2 (table_header_checks partial_history))))
              _ Hs ltac:(apply list_elem_of_In; simpl; auto) ltac:(apply list_elem_of_In; simpl; auto))
    as (i & j & Hi & Hj & Hload).
  vm_compute in Hi, Hj. injection Hi as <-. injection Hj as <-.
  apply Hload. intros row Hrow. simpl in Hrow.
  destruct Hrow as [<-|[<-|[]]].
  - exists (VStr "SPEC-100"), (VStr " B "). split; [reflexivity|]. split; [reflexivity|].
    right. split; vm_compute; reflexivity.
  - exists VNone, (VStr ""). split; [reflexivity|]. split; [reflexivity|].
    left. reflexivity.
Defined.

(** C10 (counterexample): a history row whose identifier cell holds only
    spaces is not skipped: building the index raises, where the same
    table without that row gives the empty index. *)
Lemma history_whitespace_identifier_raises :
  load_existing_versions
    (Some [map VStr DATABASE_HEADERS;
           [VStr "T0"; VNone; VDate 2023 1 1; VNum 1; VStr "   "; VNone; VStr "t";
            VStr "B"; VNone; VNone; VNone; VNone; VNone; VStr ""]]) = None /\
  load_existing_versions (Some [map VStr DATABASE_HEADERS]) = Some ∅.
Proof. split; vm_compute; reflexivity. Qed.

(** C10 (amended): a history row whose identifier or version cell holds
    [None] or the empty string is skipped: the index is the one of the
    table without that row, and no error is raised.  A row whose cells
    are not of that form but one of which is blank after trimming is not
    skipped: building the index raises. *)
Theorem history_blank_cells_skipped (hdr : list cell) (hs : list string) (i j : nat)
  (pre post : list (list cell)) (row : list cell) (dv vv : cell) :
  stored_headers [hdr] = Some hs ->
  header_index "DOCUMENT NUMBER 1" hs = Some i -> header_index "VERSION" hs = Some j ->
  nth_error row i = Some dv -> nth_error row j = Some vv ->
  ((is_blank dv || is_blank vv) = true ->
   load_existing_versions (Some (hdr :: pre ++ row :: post)) =
   load_existing_versions (Some (hdr :: pre ++ post))) /\
  (is_blank dv = false -> is_blank vv = false ->
   (is_empty_value dv || is_empty_value vv) = true ->
   load_existing_versions (Some (hdr :: pre ++ row :: post)) = None).
Proof.
  intros Hs Hi Hj Hdv Hvv. unfold load_existing_versions, sheet_body.
  change (stored_headers (hdr :: pre ++ row :: post)) with (stored_headers [hdr]).
  change (stored_headers (hdr :: pre ++ post)) with (stored_headers [hdr]).
  rewrite Hs, Hi, Hj. simpl tl. split.
  - intros Hb. rewrite !fold_left_app. simpl.
    rewrite (lev_step_blank i j row dv vv _ Hdv Hvv Hb). reflexivity.
  - intros Hd Hv He. rewrite fold_left_app. simpl.
    rewrite (lev_step_whitespace i j row dv vv _ Hdv Hvv Hd Hv He). apply lev_step_none.
Qed.

Lemma history_blank_cells_skipped_witness :
  stored_headers [map VStr DATABASE_HEADERS] = Some (map normalize_header DATABASE_HEADERS) /\
  header_index "DOCUMENT NUMBER 1" (map normalize_header DATABASE_HEADERS) = Some 4 /\
  header_index "VERSION" (map normalize_header DATABASE_HEADERS) = Some 7 /\
  ((is_blank VNone || is_blank (VStr "B")) = true ->
   load_existing_versions (Some (map VStr DATABASE_HEADERS :: [] ++
     [VStr "T0"; VNone; VDate 2023 1 1; VNum 1; VNone; VNone; VStr "t";
      VStr "B"; VNone; VNone; VNone; VNone; VNone; VStr ""] :: [])) =
   load_existing_versions (Some (map VStr DATABASE_HEADERS :: [] ++ []))) /\
  (is_blank VNone = false -> is_blank (VStr "B") = false ->
   (is_empty_value VNone || is_empty_value (VStr "B")) = true ->
   load_existing_versions (Some (map VStr DATABASE_HEADERS :: [] ++
     [VStr "T0"; VNone; VDate 2023 1 1; VNum 1; VNone; VNone; VStr "t";
      VStr "B"; VNone; VNone; VNone; VNone; VNone; VStr ""] :: [])) = None).
Proof.
  split; [vm_compute; reflexivity|]. split; [vm_compute; reflexivity|].
  split; [vm_compute; reflexivity|].
  apply (history_blank_cells_skipped (map VStr DATABASE_HEADERS)
           (map normalize_header DATABASE_HEADERS) 4 7 [] []
           [VStr "T0"; VNone; VDate 2023 1 1; VNum 1; VNone; VNone; VStr "t";
            VStr "B"; VNone; VNone; VNone; VNone; VNone; VStr ""] VNone (VStr "B"));
    vm_compute; reflexivity.
Defined.

(** ** Dicts *)

Lemma rget_dict_set (k h : string) (v : cell) (r : record) :
  rget (dict_set k v r) h = if String.eqb h k then v else rget r h.
Proof.
  unfold rget. induction r as [|[k' v'] r IH]; simpl.
  - destruct (String.eqb h k); reflexivity.
  - destruct (String.eqb k k') eqn:Hk; simpl.
    + apply String.eqb_eq in Hk. subst k'. destruct (String.eqb h k); reflexivity.
    + destruct (String.eqb h k') eqn:Hh; [|exact IH].
      apply String.eqb_eq in Hh. subst h. rewrite String.eqb_sym, Hk. reflexivity.
Qed.

Lemma dict_set_keys {V} (k : string) (v : V) (d : list (string * V)) (k' : string) :
  In k' (map fst (dict_set k v d)) <-> k' = k \/ In k' (map fst d).
Proof.
  induction d as [|[k0 v0] d IH]; simpl; [intuition congruence|].
  destruct (String.eqb k k0) eqn:Hk; simpl.
  - apply String.eqb_eq in Hk. subst. intuition congruence.
  - rewrite IH. intuition congruence.
Qed.

Lemma dict_set_nodup {V} (k : string) (v : V) (d : list (string * V)) :
  List.NoDup (map fst d) -> List.NoDup (map fst (dict_set k v d)).
Proof.
  induction d as [|[k0 v0] d IH]; simpl; intros Hnd.
  - constructor; [simpl; tauto|constructor].
  - inversion Hnd as [|? ? Hn Hnd']; subst.
    destruct (String.eqb k k0) eqn:Hk; simpl; constructor; auto.
    rewrite dict_set_keys. intros [->|Hin]; [|tauto].
    rewrite String.eqb_refl in Hk. discriminate.
Qed.

Lemma dict_set_in {V} (k : string) (v : V) (d : list (string * V)) (k' : string) (v' : V) :
  In (k', v') (dict_set k v d) -> (k' = k /\ v' = v) \/ In (k', v') d.
Proof.
  induction d as [|[k0 v0] d IH]; simpl.
  - intros [H|[]]. injection H as <- <-. auto.
  - destruct (String.eqb k k0) eqn:Hk; simpl.
    + apply String.eqb_eq in Hk. subst k0. intros [H|H]; [injection H as <- <-|]; auto.
    + intros [H|H]; [auto|]. destruct (IH H); auto.
Qed.

Lemma dict_get_dict_set {V} (k k' : string) (v : V) (d : list (string * V)) :
  dict_get k' (dict_set k v d) = if String.eqb k' k then Some v else dict_get k' d.
Proof.
  induction d as [|[k0 v0] d IH]; simpl.
  - destruct (String.eqb k' k); reflexivity.
  - destruct (String.eqb k k0) eqn:Hk; simpl.
    + apply String.eqb_eq in Hk. subst k0. destruct (String.eqb k' k); reflexivity.
    + destruct (String.eqb k' k0) eqn:Hk'; [|exact IH].
      apply String.eqb_eq in Hk'. subst k'. rewrite String.eqb_sym, Hk. reflexivity.
Qed.

Lemma dict_get_in {V} (k : string) (v : V) (d : list (string * V)) :
  dict_get k d = Some v -> In (k, v) d.
Proof.
  induction d as [|[k0 v0] d IH]; simpl; [discriminate|].
  destruct (String.eqb k k0) eqn:Hk; [|auto].
  apply String.eqb_eq in Hk. intros H. injection H as <-. subst. auto.
Qed.

Lemma nodup_fst_unique {V} (d : list (string * V)) (k : string) (v1 v2 : V) :
  List.NoDup (map fst d) -> In (k, v1) d -> In (k, v2) d -> v1 = v2.
Proof.
  induction d as [|[k0 v0] d IH]; simpl; [tauto|].
  intros Hnd. inversion Hnd as [|? ? Hn Hnd']; subst.
  intros [H1|H1] [H2|H2].
  - congruence.
  - injection H1 as <- <-. exfalso. apply Hn. apply (in_map fst) in H2. exact H2.
  - injection H2 as <- <-. exfalso. apply Hn. apply (in_map fst) in H1. exact H1.
  - eauto.
Qed.

(** ** The row validator *)

Lemma sorted_in (x : string) (l : list string) : In x (Py.sorted l) <-> In x l.
Proof.
  unfold Py.sorted. induction l as [|y l IH]; simpl; [tauto|].
  rewrite <- IH. generalize (fold_right Py.insert_sorted [] l). intros m.
  induction m as [|z m IHm]; simpl; [tauto|].
  destruct (Py.str_ltb z y); simpl; rewrite ?IHm; tauto.
Qed.

Lemma find_matching_files_files (tdir : gmap string entry) (d ln f : string) :
  In f (find_matching_files tdir d ln) ->
  f <> ln /\ Py.contains d (Py.lower f) = true /\ exists c, tdir !! f = Some (File c).
Proof.
  unfold find_matching_files. rewrite sorted_in. intros Hin.
  apply in_map_iff in Hin as ([n e] & <- & Hin). apply filter_In in Hin as [Hin Hp].
  apply list_elem_of_In, elem_of_map_to_list in Hin. simpl.
  destruct (String.eqb n ln) eqn:Hn; [discriminate|]. apply String.eqb_neq in Hn.
  destruct e as [c|]; [|discriminate]. eauto.
Qed.

Lemma validate_row_ok (dp : string -> option (Z * Z * Z)) (tdir : gmap string entry)
  (ln : string) (idx : gset (string * string)) (r : record) (v : trow) :
  validate_row dp tdir ln idx r = inr v ->
  exists d,
    existsb (fun f => is_empty_value (rget r f)) REQUIRED_FIELDS = false /\
    normalize_doc_number (rget r "DOCUMENT NUMBER 1") = inr (normalized_doc v) /\
    normalize_version (rget r "VERSION") = inr (normalized_version v) /\
    ((normalized_doc v, Py.lower (normalized_version v)) ∉ idx) /\
    coerce_date dp (rget r "DATE") = inr d /\
    raw v = dict_set "DATE" d r /\
    filenames v = find_matching_files tdir (normalized_doc v) ln.
Proof.
  unfold validate_row.
  destruct (existsb _ REQUIRED_FIELDS) eqn:Hreq; [discriminate|].
  destruct (normalize_doc_number _) as [|nd] eqn:Hd; [discriminate|].
  destruct (normalize_version _) as [|nv] eqn:Hv; [discriminate|].
  case_bool_decide as Hin; [discriminate|].
  destruct (coerce_date dp _) as [|d] eqn:Hc; [discriminate|].
  intros H. injection H as <-. simpl. exists d. auto 8.
Qed.

(** A validated row still names its document in its identifier cell. *)
Lemma validate_row_doc (dp : string -> option (Z * Z * Z)) (tdir : gmap string entry)
  (ln : string) (idx : gset (string * string)) (r : record) (v : trow) :
  validate_row dp tdir ln idx r = inr v ->
  normalize_doc_number (rget (raw v) "DOCUMENT NUMBER 1") = inr (normalized_doc v).
Proof.
  intros H. destruct (validate_row_ok dp tdir ln idx r v H) as (d & _ & Hd & _ & _ & _ & Hr & _).
  rewrite Hr, rget_dict_set. exact Hd.
Qed.

Lemma oks_in (outs : list (row_error + trow)) (v : trow) : In v (oks outs) <-> In (inr v) outs.
Proof.
  induction outs as [|[e|w] outs IH]; simpl; [tauto| |].
  - rewrite IH. split; [auto|intros [H|H]; [discriminate|auto]].
  - rewrite IH. split; intros [H|H]; auto; left; congruence.
Qed.

(** ** The acceptance and rejection branches *)

Lemma copy_files_some (tdir m : gmap string entry) (fs : list string) :
  (forall f, In f fs -> exists c, tdir !! f = Some (File c)) ->
  exists m', copy_files tdir m fs = Some m'.
Proof.
  revert m. induction fs as [|f fs IH]; intros m Hf; simpl; [eauto|].
  destruct (Hf f (or_introl eq_refl)) as [c Hc]. unfold copy_file. rewrite Hc.
  destruct (m !! f) as [[]|]; apply IH; intros g Hg; apply Hf; right; exact Hg.
Qed.

Lemma sync_rows_some (tdir : gmap string entry) (rows : list trow) :
  (forall r f, In r rows -> In f (filenames r) -> exists c, tdir !! f = Some (File c)) ->
  forall P m, exists m', sync_rows tdir P m rows = Some m'.
Proof.
  induction rows as [|r rows IH]; intros Hf P m; simpl; [eauto|].
  destruct (copy_files_some tdir (if bool_decide (normalized_doc r ∈ P) then m
                                  else remove_matching (normalized_doc r) m) (filenames r))
    as [m1 Hm1]; [intros f Hin; apply (Hf r f); simpl; auto|].
  rewrite Hm1. apply IH. intros r' f Hr' Hin. apply (Hf r' f); simpl; auto.
Qed.

Lemma validated_files (dp : string -> option (Z * Z * Z)) (tdir : gmap string entry)
  (ln : string) (idx : gset (string * string)) (raws : list record) :
  forall r f, In r (oks (validate_rows dp tdir ln idx raws)) -> In f (filenames r) ->
  exists c, tdir !! f = Some (File c).
Proof.
  intros r f Hr Hf. apply oks_in in Hr. unfold validate_rows in Hr.
  apply in_map_iff in Hr as (x & Hx & _).
  destruct (validate_row_ok dp tdir ln idx x r Hx) as (d & _ & _ & _ & _ & _ & _ & Hfn).
  rewrite Hfn in Hf. apply find_matching_files_files in Hf. tauto.
Qed.

Lemma accept_not_rejected (name : string) (tdir : gmap string entry) (rows : list trow)
  (st st' : project) :
  accept name tdir rows st <> Finished Rejected st'.
Proof.
  unfold accept.
  destruct (append_to_database _ _); [|discriminate].
  destruct (update_document_list _ _); [|discriminate].
  destruct (sync_current_files _ _ _); [|discriminate].
  destruct (move_transmittal _ _ _) as [[]|]; discriminate.
Qed.

Lemma accept_succeeds (name : string) (tdir : gmap string entry) (rows : list trow)
  (st : project) (db' dl' : sheet) :
  (forall r f, In r rows -> In f (filenames r) -> exists c, tdir !! f = Some (File c)) ->
  append_to_database (db st) rows = Some db' ->
  update_document_list (doc_list st) rows = Some dl' ->
  exists st' c, accept name tdir rows st = Finished Accepted st' /\
    db st' = Some db' /\ doc_list st' = Some dl' /\
    accepted st !! c = None /\ accepted st' = <[c := Moved tdir]> (accepted st) /\
    rejected st' = rejected st /\ pending st' = delete name (pending st).
Proof.
  intros Hf Ha Hu. unfold accept. rewrite Ha. simpl. rewrite Hu. simpl.
  destruct (sync_rows_some tdir rows Hf [] (current st)) as [cur' Hs].
  unfold sync_current_files. rewrite Hs. simpl.
  destruct (move_transmittal_spec name tdir (accepted st)) as (c & Hm & Hfree & _).
  rewrite Hm. eexists _, c. repeat split; eauto.
Qed.

Lemma reject_spec (name : string) (tdir : gmap string entry) (st : project) :
  exists c, rejected st !! c = None /\
    reject name tdir st =
      Finished Rejected {| db := db st; doc_list := doc_list st; current := current st;
                           pending := delete name (pending st); accepted := accepted st;
                           rejected := <[c := Moved tdir]> (rejected st) |}.
Proof.
  destruct (move_transmittal_spec name tdir (rejected st)) as (c & Hm & Hfree & _).
  exists c. split; [exact Hfree|]. unfold reject. rewrite Hm. reflexivity.
Qed.

Lemma process_readable (dp : string -> option (Z * Z * Z)) (lw : string -> option sheet)
  (name : string) (tdir : gmap string entry) (st : project) (log : entry)
  (idx : gset (string * string)) (raws : list record) :
  tdir !! (name +:+ ".xlsx") = Some log ->
  load_existing_versions (db st) = Some idx ->
  read_manifest lw log = Some raws ->
  process_transmittal dp lw name tdir st =
    match oks (validate_rows dp tdir (name +:+ ".xlsx") idx raws),
          errs (validate_rows dp tdir (name +:+ ".xlsx") idx raws) with
    | [], _ => reject name tdir st
    | _, _ :: _ => reject name tdir st
    | rows, [] => accept name tdir rows st
    end.
Proof.
  intros Hl Hi Hr. unfold process_transmittal. rewrite Hl, Hi, Hr. simpl.
  destruct (oks _); reflexivity.
Qed.

Lemma required_present (r : record) :
  existsb (fun f => is_empty_value (rget r f)) REQUIRED_FIELDS = false ->
  is_empty_value (rget r "DOCUMENT NUMBER 1") = false /\ is_empty_value (rget r "VERSION") = false.
Proof. simpl. rewrite !orb_false_iff. tauto. Qed.

Lemma coerce_date_not_duplicate (dp : string -> option (Z * Z * Z)) (v : cell) :
  coerce_date dp v <> inl DuplicateVersion.
Proof.
  unfold coerce_date. destruct v; try discriminate;
    (destruct (String.eqb _ "" ); [discriminate|];
     destruct (dp _) as [[[y m] d]|]; discriminate).
Qed.

Lemma validate_row_duplicate_in (dp : string -> option (Z * Z * Z)) (tdir : gmap string entry)
  (ln : string) (idx : gset (string * string)) (r : record) :
  validate_row dp tdir ln idx r = inl DuplicateVersion ->
  (Py.lower (Py.strip (py_str (rget r "DOCUMENT NUMBER 1"))),
   Py.lower (Py.strip (py_str (rget r "VERSION")))) ∈ idx.
Proof.
  unfold validate_row, normalize_doc_number, normalize_version. intros H.
  destruct (existsb _ REQUIRED_FIELDS); [discriminate H|].
  destruct (is_empty_value (rget r "DOCUMENT NUMBER 1")); [simpl in H; discriminate H|].
  destruct (is_empty_value (rget r "VERSION")); [simpl in H; discriminate H|].
  simpl in H. case_bool_decide as Hin; [exact Hin|].
  destruct (coerce_date dp _) as [e|] eqn:Hc; [|discriminate H].
  injection H as ->. exfalso. exact (coerce_date_not_duplicate dp _ Hc).
Qed.

Lemma all_ok_errs (f : record -> row_error + trow) (raws : list record) :
  Forall (fun r => exists v, f r = inr v) raws -> errs (map f raws) = [].
Proof. induction 1 as [|r raws [v Hv] _ IH]; simpl; [reflexivity|]. by rewrite Hv. Qed.

Lemma all_ok_oks (f : record -> row_error + trow) (raws : list record) :
  raws <> [] -> Forall (fun r => exists v, f r = inr v) raws -> oks (map f raws) <> [].
Proof.
  intros Hne Hall. destruct Hall as [|r raws [v Hv] _]; [congruence|]. simpl. by rewrite Hv.
Qed.

(** ** Row validation and the accept/reject decision *)

(** C3 (counterexample): a row for SPEC-100 version B whose TITLE is
    empty fails with [MissingRequiredField], not [DuplicateVersion], even
    though the history holds (spec-100, b). *)
Lemma duplicate_pair_missing_title :
  load_existing_versions (Some history_spec100_b) = Some {[("spec-100", "b")]} /\
  validate_row no_date_parser t1_dir "T1.xlsx" {[("spec-100", "b")]}
    (manifest_record (VStr "SPEC-100") (VStr "B") VNone) = inl MissingRequiredField.
Proof. split; vm_compute; reflexivity. Qed.

(** C3 (amended): a row whose pair (trimmed lower-cased identifier,
    trimmed lower-cased version) is in the Version History Index fails:
    with [MissingRequiredField] when one of its required fields is empty,
    since that check runs first, and with [DuplicateVersion] otherwise. *)
Theorem validate_row_duplicate_version (dp : string -> option (Z * Z * Z))
  (tdir : gmap string entry) (ln : string) (idx : gset (string * string)) (r : record) :
  (Py.lower (Py.strip (py_str (rget r "DOCUMENT NUMBER 1"))),
   Py.lower (Py.strip (py_str (rget r "VERSION")))) ∈ idx ->
  validate_row dp tdir ln idx r =
    if existsb (fun f => is_empty_value (rget r f)) REQUIRED_FIELDS
    then inl MissingRequiredField else inl DuplicateVersion.
Proof.
  intros Hin. destruct (existsb _ REQUIRED_FIELDS) eqn:Hreq.
  - unfold validate_row. rewrite Hreq. reflexivity.
  - destruct (required_present r Hreq) as [Hd Hv].
    unfold validate_row, normalize_doc_number, normalize_version.
    rewrite Hreq, Hd, Hv. rewrite bool_decide_true by exact Hin. reflexivity.
Qed.

(** The example of the specification: SPEC-100 version B against a
    history holding (spec-100, b). *)
Lemma validate_row_duplicate_version_witness :
  load_existing_versions (Some history_spec100_b) = Some {[("spec-100", "b")]} /\
  existsb (fun f => is_empty_value (rget (manifest_record (VStr "SPEC-100") (VStr "B") (VStr "Spec")) f))
    REQUIRED_FIELDS = false /\
  (Py.lower (Py.strip (py_str (rget (manifest_record (VStr "SPEC-100") (VStr "B") (VStr "Spec"))
                                    "DOCUMENT NUMBER 1"))),
   Py.lower (Py.strip (py_str (rget (manifest_record (VStr "SPEC-100") (VStr "B") (VStr "Spec"))
                                    "VERSION")))) ∈ ({[("spec-100", "b")]} : gset (string * string)) /\
  validate_row no_date_parser t1_dir "T1.xlsx" {[("spec-100", "b")]}
    (manifest_record (VStr "SPEC-100") (VStr "B") (VStr "Spec")) = inl DuplicateVersion /\
  validate_row no_date_parser t1_dir "T1.xlsx" {[("spec-100", "b")]}
    (manifest_record (VStr "SPEC-100") (VStr "B") VNone) = inl MissingRequiredField.
Proof.
  split; [vm_compute; reflexivity|].
  assert (Hreq : existsb (fun f => is_empty_value
            (rget (manifest_record (VStr "SPEC-100") (VStr "B") (VStr "Spec")) f))
            REQUIRED_FIELDS = false) by (vm_compute; reflexivity).
  assert (Hin : (Py.lower (Py.strip (py_str (rget (manifest_record (VStr "SPEC-100") (VStr "B")
                  (VStr "Spec")) "DOCUMENT NUMBER 1"))),
                 Py.lower (Py.strip (py_str (rget (manifest_record (VStr "SPEC-100") (VStr "B")
                  (VStr "Spec")) "VERSION")))) ∈ ({[("spec-100", "b")]} : gset (string * string)))
    by (apply elem_of_singleton; vm_compute; reflexivity).
  split; [exact Hreq|]. split; [exact Hin|].
  rewrite (validate_row_duplicate_version no_date_parser t1_dir "T1.xlsx" {[("spec-100", "b")]}
             (manifest_record (VStr "SPEC-100") (VStr "B") (VStr "Spec")) Hin), Hreq.
  split; [reflexivity|].
  assert (Hin' : (Py.lower (Py.strip (py_str (rget (manifest_record (VStr "SPEC-100") (VStr "B")
                  VNone) "DOCUMENT NUMBER 1"))),
                 Py.lower (Py.strip (py_str (rget (manifest_record (VStr "SPEC-100") (VStr "B")
                  VNone) "VERSION")))) ∈ ({[("spec-100", "b")]} : gset (string * string)))
    by (apply elem_of_singleton; vm_compute; reflexivity).
  rewrite (validate_row_duplicate_version no_date_parser t1_dir "T1.xlsx" {[("spec-100", "b")]}
             (manifest_record (VStr "SPEC-100") (VStr "B") VNone) Hin').
  vm_compute. reflexivity.
Defined.

(** C4: the Version History Index [idx] is the one read from the history
    table before the rows are validated, and every row is checked against
    that same [idx]: a row fails with [DuplicateVersion] only when its
    pair is in [idx], and when every row passes on its own against [idx]
    the transmittal goes to the acceptance branch, whatever pairs the
    rows share among themselves. *)
Theorem version_index_fixed_per_transmittal (dp : string -> option (Z * Z * Z))
  (lw : string -> option sheet) (name : string) (tdir : gmap string entry) (st : project)
  (log : entry) (idx : gset (string * string)) (raws : list record) :
  tdir !! (name +:+ ".xlsx") = Some log ->
  load_existing_versions (db st) = Some idx ->
  read_manifest lw log = Some raws ->
  (forall r, In r raws ->
     validate_row dp tdir (name +:+ ".xlsx") idx r = inl DuplicateVersion ->
     (Py.lower (Py.strip (py_str (rget r "DOCUMENT NUMBER 1"))),
      Py.lower (Py.strip (py_str (rget r "VERSION")))) ∈ idx) /\
  (raws <> [] ->
   Forall (fun r => exists v, validate_row dp tdir (name +:+ ".xlsx") idx r = inr v) raws ->
   process_transmittal dp lw name tdir st =
     accept name tdir (oks (validate_rows dp tdir (name +:+ ".xlsx") idx raws)) st).
Proof.
  intros Hl Hi Hr. split.
  - intros r _. apply validate_row_duplicate_in.
  - intros Hne Hall. rewrite (process_readable dp lw name tdir st log idx raws Hl Hi Hr).
    unfold validate_rows. rewrite (all_ok_errs _ _ Hall).
    destruct (oks _) eqn:Ho; [|reflexivity].
    exfalso. exact (all_ok_oks _ _ Hne Hall Ho).
Qed.

(** Two identical rows, hence the same (document, version) pair, in one
    manifest: both pass and the transmittal is accepted. *)
Lemma version_index_fixed_per_transmittal_witness :
  dup_dir !! ("T2" +:+ ".xlsx") = Some (File "dup") /\
  load_existing_versions (db empty_project) = Some ∅ /\
  read_manifest dup_workbooks (File "dup") = Some [spec100_b; spec100_b] /\
  (forall r, In r [spec100_b; spec100_b] ->
     validate_row no_date_parser dup_dir ("T2" +:+ ".xlsx") ∅ r = inl DuplicateVersion ->
     (Py.lower (Py.strip (py_str (rget r "DOCUMENT NUMBER 1"))),
      Py.lower (Py.strip (py_str (rget r "VERSION")))) ∈ (∅ : gset (string * string))) /\
  ([spec100_b; spec100_b] <> [] ->
   Forall (fun r => exists v, validate_row no_date_parser dup_dir ("T2" +:+ ".xlsx") ∅ r = inr v)
     [spec100_b; spec100_b] ->
   process_transmittal no_date_parser dup_workbooks "T2" dup_dir empty_project =
     accept "T2" dup_dir
       (oks (validate_rows no_date_parser dup_dir ("T2" +:+ ".xlsx") ∅ [spec100_b; spec100_b]))
       empty_project) /\
  match process_transmittal no_date_parser dup_workbooks "T2" dup_dir empty_project with
  | Finished Accepted _ => True
  | _ => False
  end.
Proof.
  assert (Hl : dup_dir !! ("T2" +:+ ".xlsx") = Some (File "dup")) by (vm_compute; reflexivity).
  assert (Hi : load_existing_versions (db empty_project) = Some ∅) by reflexivity.
  assert (Hr : read_manifest dup_workbooks (File "dup") = Some [spec100_b; spec100_b])
    by (vm_compute; reflexivity).
  split; [exact Hl|]. split; [exact Hi|]. split; [exact Hr|].
  split; [exact (proj1 (version_index_fixed_per_transmittal no_date_parser dup_workbooks "T2"
                          dup_dir empty_project (File "dup") ∅ _ Hl Hi Hr))|].
  split; [exact (proj2 (version_index_fixed_per_transmittal no_date_parser dup_workbooks "T2"
                          dup_dir empty_project (File "dup") ∅ _ Hl Hi Hr))|].
  vm_compute. exact I.
Defined.

(** C1 (counterexample): [T1] has one valid row and no row error, but the
    history table's header is only [DOCUMENT NUMBER 1 | VERSION]: the
    index is read, then appending to the history table raises and the run
    ends with [T1] neither accepted nor rejected. *)
Lemma valid_transmittal_aborted_by_history_header :
  validate_rows no_date_parser t1_dir "T1.xlsx" ∅
    [manifest_record (VStr "SPEC-100") (VStr "B") (VStr "Spec")] <> [] /\
  errs (validate_rows no_date_parser t1_dir "T1.xlsx" ∅
          [manifest_record (VStr "SPEC-100") (VStr "B") (VStr "Spec")]) = [] /\
  oks (validate_rows no_date_parser t1_dir "T1.xlsx" ∅
         [manifest_record (VStr "SPEC-100") (VStr "B") (VStr "Spec")]) <> [] /\
  match process_transmittal no_date_parser t1_workbooks "T1" t1_dir
          (set_db (Some [[VStr "DOCUMENT NUMBER 1"; VStr "VERSION"]]) empty_project) with
  | Aborted _ => True
  | Finished _ _ => False
  end.
Proof.
  split; [vm_compute; discriminate|]. split; [vm_compute; reflexivity|].
  split; [vm_compute; discriminate|]. vm_compute. exact I.
Qed.

(** C1 (amended): once the manifest is read and the Version History
    Index is built, a transmittal with no validated row or with any row
    error is rejected: it is moved under a free name of the rejected root
    and the history table, the Latest-Version Index, the mirror and the
    accepted root are unchanged.  Otherwise it is never rejected, and it
    is accepted (moved under the accepted root) whenever the history table
    and the index can be written; a failure to write the history table,
    or the index after it, aborts the run (the history table keeps the
    rows appended before the index failed). *)
Theorem transmittal_all_or_nothing (dp : string -> option (Z * Z * Z))
  (lw : string -> option sheet) (name : string) (tdir : gmap string entry) (st : project)
  (log : entry) (idx : gset (string * string)) (raws : list record)
  (outs : list (row_error + trow)) :
  tdir !! (name +:+ ".xlsx") = Some log ->
  load_existing_versions (db st) = Some idx ->
  read_manifest lw log = Some raws ->
  outs = validate_rows dp tdir (name +:+ ".xlsx") idx raws ->
  ((oks outs = [] \/ errs outs <> []) ->
   exists c, rejected st !! c = None /\
     process_transmittal dp lw name tdir st =
       Finished Rejected {| db := db st; doc_list := doc_list st; current := current st;
                            pending := delete name (pending st); accepted := accepted st;
                            rejected := <[c := Moved tdir]> (rejected st) |}) /\
  (oks outs <> [] -> errs outs = [] ->
   (forall st', process_transmittal dp lw name tdir st <> Finished Rejected st') /\
   (append_to_database (db st) (oks outs) = None ->
      process_transmittal dp lw name tdir st = Aborted st) /\
   (forall db', append_to_database (db st) (oks outs) = Some db' ->
      update_document_list (doc_list st) (oks outs) = None ->
      process_transmittal dp lw name tdir st = Aborted (set_db (Some db') st)) /\
   (forall db' dl', append_to_database (db st) (oks outs) = Some db' ->
      update_document_list (doc_list st) (oks outs) = Some dl' ->
      exists st' c, process_transmittal dp lw name tdir st = Finished Accepted st' /\
        db st' = Some db' /\ doc_list st' = Some dl' /\
        accepted st !! c = None /\ accepted st' = <[c := Moved tdir]> (accepted st) /\
        rejected st' = rejected st /\ pending st' = delete name (pending st))).
Proof.
  intros Hl Hi Hr ->. rewrite (process_readable dp lw name tdir st log idx raws Hl Hi Hr).
  split.
  - intros Hrej. destruct (reject_spec name tdir st) as (c & Hfree & Hrj).
    exists c. split; [exact Hfree|].
    destruct (oks _) as [|v vs]; [exact Hrj|].
    destruct (errs _) as [|e es]; [destruct Hrej as [H|H]; congruence|exact Hrj].
  - intros Hne He. rewrite He.
    pose proof (validated_files dp tdir (name +:+ ".xlsx") idx raws) as Hf.
    destruct (oks _) as [|v vs]; [congruence|]. split; [|split; [|split]].
    + apply accept_not_rejected.
    + intros Ha. unfold accept. rewrite Ha. reflexivity.
    + intros db' Ha Hu. unfold accept. rewrite Ha. simpl. rewrite Hu. reflexivity.
    + intros db' dl' Ha Hu. exact (accept_succeeds name tdir (v :: vs) st db' dl' Hf Ha Hu).
Qed.

Lemma transmittal_all_or_nothing_witness :
  t1_dir !! ("T1" +:+ ".xlsx") = Some (File "m1") /\
  load_existing_versions (db (set_db (Some [[VStr "DOCUMENT NUMBER 1"; VStr "VERSION"]])
                                empty_project)) = Some ∅ /\
  read_manifest t1_workbooks (File "m1") = Some [spec100_b] /\
  oks (validate_rows no_date_parser t1_dir ("T1" +:+ ".xlsx") ∅ [spec100_b]) <> [] /\
  errs (validate_rows no_date_parser t1_dir ("T1" +:+ ".xlsx") ∅ [spec100_b]) = [] /\
  append_to_database (Some [[VStr "DOCUMENT NUMBER 1"; VStr "VERSION"]])
    (oks (validate_rows no_date_parser t1_dir ("T1" +:+ ".xlsx") ∅ [spec100_b])) = None /\
  process_transmittal no_date_parser t1_workbooks "T1" t1_dir
    (set_db (Some [[VStr "DOCUMENT NUMBER 1"; VStr "VERSION"]]) empty_project) =
    Aborted (set_db (Some [[VStr "DOCUMENT NUMBER 1"; VStr "VERSION"]]) empty_project).
Proof.
  assert (Hl : t1_dir !! ("T1" +:+ ".xlsx") = Some (File "m1")) by (vm_compute; reflexivity).
  assert (Hi : load_existing_versions (db (set_db (Some [[VStr "DOCUMENT NUMBER 1"; VStr "VERSION"]])
                                empty_project)) = Some ∅) by (vm_compute; reflexivity).
  assert (Hr : read_manifest t1_workbooks (File "m1") = Some [spec100_b])
    by (vm_compute; reflexivity).
  assert (Hne : oks (validate_rows no_date_parser t1_dir ("T1" +:+ ".xlsx") ∅ [spec100_b]) <> [])
    by (vm_compute; discriminate).
  assert (He : errs (validate_rows no_date_parser t1_dir ("T1" +:+ ".xlsx") ∅ [spec100_b]) = [])
    by (vm_compute; reflexivity).
  assert (Ha : append_to_database (Some [[VStr "DOCUMENT NUMBER 1"; VStr "VERSION"]])
    (oks (validate_rows no_date_parser t1_dir ("T1" +:+ ".xlsx") ∅ [spec100_b])) = None)
    by (vm_compute; reflexivity).
  do 6 (split; [assumption|]).
  exact (proj1 (proj2 (proj2 (transmittal_all_or_nothing no_date_parser t1_workbooks "T1" t1_dir
           (set_db (Some [[VStr "DOCUMENT NUMBER 1"; VStr "VERSION"]]) empty_project)
           (File "m1") ∅ [spec100_b] _ Hl Hi Hr eq_refl) Hne He)) Ha).
Defined.

(** ** The Latest-Version Index merge *)

(** Keys are distinct, and every stored record names its own key. *)
Definition index_inv (e : list (string * record)) : Prop :=
  List.NoDup (map fst e) /\
  forall k rec, In (k, rec) e -> normalize_doc_number (rget rec "DOCUMENT NUMBER 1") = inr k.

Lemma index_inv_dict_set (k : string) (rec : record) (e : list (string * record)) :
  normalize_doc_number (rget rec "DOCUMENT NUMBER 1") = inr k ->
  index_inv e -> index_inv (dict_set k rec e).
Proof.
  intros Hk [Hnd Hall]. split; [by apply dict_set_nodup|].
  intros k' rec' Hin. apply dict_set_in in Hin as [[-> ->]|Hin]; auto.
Qed.

Lemma index_load_inv (hdr : list cell) (rows : list (list cell)) :
  forall acc e', fold_left (index_load_step hdr) rows acc = Some e' ->
  (forall e, acc = Some e -> index_inv e) -> index_inv e'.
Proof.
  induction rows as [|row rows IH]; intros acc e' Hf Hacc; simpl in Hf.
  - exact (Hacc e' Hf).
  - apply (IH _ e' Hf). intros e He. destruct acc as [e0|]; simpl in He; [|discriminate].
    destruct (forallb is_blank row); [injection He as <-; auto|].
    destruct (index_record hdr row) as [rec|]; [|discriminate].
    destruct (normalize_doc_number _) as [|k] eqn:Hk; [discriminate|].
    injection He as <-. apply index_inv_dict_set; auto.
Qed.

Lemma index_merge_inv (rows : list trow) :
  (forall r, In r rows -> normalize_doc_number (rget (raw r) "DOCUMENT NUMBER 1") =
                          inr (normalized_doc r)) ->
  forall e, index_inv e ->
  index_inv (fold_left (fun e r => dict_set (normalized_doc r) (raw r) e) rows e).
Proof.
  induction rows as [|r rows IH]; intros Hr e He; simpl; [exact He|].
  apply IH; [intros r' Hin; apply Hr; simpl; auto|].
  apply index_inv_dict_set; [apply Hr; simpl; auto|exact He].
Qed.

Lemma index_merge_get_other (rows : list trow) (k : string) :
  (forall r, In r rows -> normalized_doc r <> k) ->
  forall e, dict_get k (fold_left (fun e r => dict_set (normalized_doc r) (raw r) e) rows e) =
            dict_get k e.
Proof.
  induction rows as [|r rows IH]; intros Hr e; simpl; [reflexivity|].
  rewrite IH by (intros r' Hin; apply Hr; simpl; auto).
  rewrite dict_get_dict_set. destruct (String.eqb k (normalized_doc r)) eqn:Hk; [|reflexivity].
  apply String.eqb_eq in Hk. exfalso. apply (Hr r); simpl; auto.
Qed.

Lemma index_row_doc (kr : string * record) :
  nth 4 (index_row kr) VNone = rget kr.2 "DOCUMENT NUMBER 1".
Proof. reflexivity. Qed.

(** C2: after [update_document_list] with validated rows, the rewritten
    Latest-Version Index holds at most one row per normalized identifier,
    and for every identifier of the transmittal the row stored for it is
    the transmittal's last row for that identifier, whatever the index
    held before (no comparison of versions or dates). *)
Theorem update_document_list_last_wins (dp : string -> option (Z * Z * Z))
  (tdir : gmap string entry) (ln : string) (idx : gset (string * string))
  (raws : list record) (dl : option sheet) (dl' : sheet) :
  update_document_list dl (oks (validate_rows dp tdir ln idx raws)) = Some dl' ->
  List.NoDup (map (fun row => normalize_doc_number (nth 4 row VNone)) (sheet_body dl')) /\
  (forall pre r post, oks (validate_rows dp tdir ln idx raws) = (pre ++ r :: post)%list ->
     (forall r', In r' post -> normalized_doc r' <> normalized_doc r) ->
     In (map (rget (raw r)) EXPECTED_HEADERS) (sheet_body dl') /\
     (forall row, In row (sheet_body dl') ->
        normalize_doc_number (nth 4 row VNone) = inr (normalized_doc r) ->
        row = map (rget (raw r)) EXPECTED_HEADERS)).
Proof.
  set (rows := oks (validate_rows dp tdir ln idx raws)).
  assert (Hrows : forall r, In r rows ->
            normalize_doc_number (rget (raw r) "DOCUMENT NUMBER 1") = inr (normalized_doc r)).
  { intros r Hr. apply oks_in in Hr. unfold validate_rows in Hr.
    apply in_map_iff in Hr as (x & Hx & _). exact (validate_row_doc dp tdir ln idx x r Hx). }
  unfold update_document_list.
  destruct (ensure_workbook dl EXPECTED_HEADERS) as [sh|]; [|discriminate].
  destruct (fold_left _ (sheet_body sh) (Some [])) as [existing|] eqn:Hload; [|discriminate].
  intros H. injection H as <-. simpl.
  assert (Hinv0 : index_inv existing).
  { apply (index_load_inv _ _ _ _ Hload). intros e He. injection He as <-.
    split; [constructor|intros k rec []]. }
  set (merged := fold_left (fun e r => dict_set (normalized_doc r) (raw r) e) rows existing).
  destruct (index_merge_inv rows Hrows existing Hinv0) as [Hnd Hkeys]. fold merged in Hnd, Hkeys.
  assert (Hrow_key : forall kr, In kr merged ->
            normalize_doc_number (nth 4 (index_row kr) VNone) = inr kr.1).
  { intros [k rec] Hin. rewrite index_row_doc. exact (Hkeys k rec Hin). }
  split.
  - rewrite map_map. rewrite (map_ext_in _ (fun kr => inr kr.1)) by exact Hrow_key.
    rewrite <- (map_map fst inr). apply Finite.Injective_map_NoDup; [intros x y Hxy; injection Hxy; auto|exact Hnd].
  - intros pre r post Hsplit Hlast.
    assert (Hget : dict_get (normalized_doc r) merged = Some (raw r)).
    { subst merged. rewrite Hsplit, fold_left_app. simpl.
      rewrite index_merge_get_other by exact Hlast.
      rewrite dict_get_dict_set, String.eqb_refl. reflexivity. }
    apply dict_get_in in Hget. split.
    + apply in_map_iff. exists (normalized_doc r, raw r). split; [reflexivity|exact Hget].
    + intros row Hin Hk. apply in_map_iff in Hin as ([k rec] & <- & Hin).
      rewrite (Hrow_key (k, rec) Hin) in Hk. injection Hk as ->.
      rewrite (nodup_fst_unique merged _ rec (raw r) Hnd Hin Hget). reflexivity.
Qed.

Lemma update_document_list_last_wins_witness :
  update_document_list (Some index_spec100_c)
    (oks (validate_rows no_date_parser t1_dir "T1.xlsx" ∅ [spec100_b])) =
    Some [map VStr EXPECTED_HEADERS; manifest_cells (VStr "SPEC-100") (VStr "B") (VStr "Spec")] /\
  List.NoDup (map (fun row => normalize_doc_number (nth 4 row VNone))
    (sheet_body [map VStr EXPECTED_HEADERS;
                 manifest_cells (VStr "SPEC-100") (VStr "B") (VStr "Spec")])) /\
  (forall pre r post,
     oks (validate_rows no_date_parser t1_dir "T1.xlsx" ∅ [spec100_b]) = (pre ++ r :: post)%list ->
     (forall r', In r' post -> normalized_doc r' <> normalized_doc r) ->
     In (map (rget (raw r)) EXPECTED_HEADERS)
       (sheet_body [map VStr EXPECTED_HEADERS;
                    manifest_cells (VStr "SPEC-100") (VStr "B") (VStr "Spec")]) /\
     (forall row, In row (sheet_body [map VStr EXPECTED_HEADERS;
                    manifest_cells (VStr "SPEC-100") (VStr "B") (VStr "Spec")]) ->
        normalize_doc_number (nth 4 row VNone) = inr (normalized_doc r) ->
        row = map (rget (raw r)) EXPECTED_HEADERS)).
Proof.
  assert (H : update_document_list (Some index_spec100_c)
    (oks (validate_rows no_date_parser t1_dir "T1.xlsx" ∅ [spec100_b])) =
    Some [map VStr EXPECTED_HEADERS; manifest_cells (VStr "SPEC-100") (VStr "B") (VStr "Spec")])
    by (vm_compute; reflexivity).
  split; [exact H|].
  exact (update_document_list_last_wins no_date_parser t1_dir "T1.xlsx" ∅ [spec100_b] _ _ H).
Defined.

(** ** The History Table append *)

Lemma errs_nil_oks (f : record -> row_error + trow) (raws : list record) :
  errs (map f raws) = [] -> Forall2 (fun m v => f m = inr v) raws (oks (map f raws)).
Proof.
  induction raws as [|m raws IH]; simpl; [constructor|].
  destruct (f m) as [e|v] eqn:Hm; simpl; [discriminate|].
  intros H. constructor; [exact Hm|exact (IH H)].
Qed.

Lemma Forall2_map_r {A B C : Type} (P : A -> B -> Prop) (g : B -> C) (xs : list A) (ys : list B) :
  Forall2 P xs ys -> Forall2 (fun x z => exists y, P x y /\ z = g y) xs (map g ys).
Proof. induction 1; simpl; constructor; eauto. Qed.

(** C6 (code bug): a manifest row with VERSION [" B "] validates with the
    trimmed version [B], yet the history row appended for it holds the
    untrimmed manifest text [" B "] in its VERSION cell (and the manifest
    text [SPEC-100] rather than the normalized identifier [spec-100]):
    [append_to_database] copies [row.raw] and never uses
    [normalized_version]. *)
Lemma history_row_keeps_untrimmed_version :
  map (fun v => (normalized_doc v, normalized_version v))
    (oks (validate_rows no_date_parser t1_dir "T1.xlsx" ∅ [spec100_b_padded])) =
    [("spec-100", "B")] /\
  option_map (fun sh => map (fun row => (nth 4 row VNone, nth 7 row VNone)) (sheet_body sh))
    (append_to_database None
       (oks (validate_rows no_date_parser t1_dir "T1.xlsx" ∅ [spec100_b_padded]))) =
    Some [(VStr "SPEC-100", VStr " B ")].
Proof. split; vm_compute; reflexivity. Qed.

(** When every row of a transmittal validates, [append_to_database]
    keeps the stored table as it is (or starts from the header row when
    there is none) and appends one row per manifest row, in manifest
    order: the thirteen cells are the manifest's own values in the order
    of [EXPECTED_HEADERS], with only DATE replaced by its coerced value,
    followed by the matched filenames joined with ["; "]. *)
Theorem append_to_database_appends (dp : string -> option (Z * Z * Z))
  (tdir : gmap string entry) (ln : string) (idx : gset (string * string))
  (raws : list record) (db : option sheet) (db' : sheet) :
  errs (validate_rows dp tdir ln idx raws) = [] ->
  append_to_database db (oks (validate_rows dp tdir ln idx raws)) = Some db' ->
  exists sh new,
    match db with Some s => sh = s | None => sh = [map VStr DATABASE_HEADERS] end /\
    db' = (sh ++ new)%list /\
    Forall2 (fun m row => exists d nd,
        normalize_doc_number (rget m "DOCUMENT NUMBER 1") = inr nd /\
        coerce_date dp (rget m "DATE") = inr d /\
        row = (map (rget (dict_set "DATE" d m)) EXPECTED_HEADERS ++
               [VStr (Py.join "; " (find_matching_files tdir nd ln))])%list)
      raws new.
Proof.
  intros Herr. unfold append_to_database.
  destruct (ensure_workbook db DATABASE_HEADERS) as [sh|] eqn:Hens; [|discriminate].
  intros H. injection H as <-.
  exists sh, (map history_row (oks (validate_rows dp tdir ln idx raws))). split; [|split].
  - destruct db as [s|]; simpl in Hens.
    + destruct (stored_headers s); [|discriminate].
      case_bool_decide; [|discriminate]. injection Hens as <-. reflexivity.
    + injection Hens as <-. reflexivity.
  - reflexivity.
  - eapply Forall2_impl; [apply Forall2_map_r, errs_nil_oks, Herr|].
    intros m row (v & Hv & ->).
    destruct (validate_row_ok dp tdir ln idx m v Hv)
      as (d & _ & Hd & _ & _ & Hc & Hr & Hf).
    exists d, (normalized_doc v). split; [exact Hd|]. split; [exact Hc|].
    unfold history_row. rewrite Hr, Hf. reflexivity.
Qed.

Lemma append_to_database_appends_witness :
  errs (validate_rows no_date_parser t1_dir "T1.xlsx" ∅ [spec100_b]) = [] /\
  append_to_database (Some history_spec100_b)
    (oks (validate_rows no_date_parser t1_dir "T1.xlsx" ∅ [spec100_b])) =
    Some (history_spec100_b ++
          [manifest_cells (VStr "SPEC-100") (VStr "B") (VStr "Spec") ++ [VStr "SPEC-100.pdf"]])%list /\
  exists sh new,
    sh = history_spec100_b /\
    (history_spec100_b ++
     [manifest_cells (VStr "SPEC-100") (VStr "B") (VStr "Spec") ++ [VStr "SPEC-100.pdf"]])%list =
      (sh ++ new)%list /\
    Forall2 (fun m row => exists d nd,
        normalize_doc_number (rget m "DOCUMENT NUMBER 1") = inr nd /\
        coerce_date no_date_parser (rget m "DATE") = inr d /\
        row = (map (rget (dict_set "DATE" d m)) EXPECTED_HEADERS ++
               [VStr (Py.join "; " (find_matching_files t1_dir nd "T1.xlsx"))])%list)
      [spec100_b] new.
Proof.
  assert (He : errs (validate_rows no_date_parser t1_dir "T1.xlsx" ∅ [spec100_b]) = [])
    by (vm_compute; reflexivity).
  assert (Ha : append_to_database (Some history_spec100_b)
    (oks (validate_rows no_date_parser t1_dir "T1.xlsx" ∅ [spec100_b])) =
    Some (history_spec100_b ++
          [manifest_cells (VStr "SPEC-100") (VStr "B") (VStr "Spec") ++ [VStr "SPEC-100.pdf"]])%list)
    by (vm_compute; reflexivity).
  split; [exact He|]. split; [exact Ha|].
  exact (append_to_database_appends no_date_parser t1_dir "T1.xlsx" ∅ [spec100_b]
           (Some history_spec100_b) _ He Ha).
Defined.

(** ** The Current Files synchronizer *)

Lemma find_matching_files_in (tdir : gmap string entry) (d ln f : string) (c : string) :
  f <> ln -> Py.contains d (Py.lower f) = true -> tdir !! f = Some (File c) ->
  In f (find_matching_files tdir d ln).
Proof.
  intros Hn Hd Hf. unfold find_matching_files. rewrite sorted_in.
  apply in_map_iff. exists (f, File c). split; [reflexivity|].
  apply filter_In. split.
  - apply list_elem_of_In, elem_of_map_to_list. exact Hf.
  - simpl. destruct (String.eqb f ln) eqn:Hfl; [apply String.eqb_eq in Hfl; congruence|exact Hd].
Qed.

Lemma validated_filenames (dp : string -> option (Z * Z * Z)) (tdir : gmap string entry)
  (ln : string) (idx : gset (string * string)) (raws : list record) :
  forall r, In r (oks (validate_rows dp tdir ln idx raws)) ->
  filenames r = find_matching_files tdir (normalized_doc r) ln.
Proof.
  intros r Hr. apply oks_in in Hr. unfold validate_rows in Hr.
  apply in_map_iff in Hr as (x & Hx & _).
  destruct (validate_row_ok dp tdir ln idx x r Hx) as (d & _ & _ & _ & _ & _ & _ & Hfn).
  exact Hfn.
Qed.

Lemma remove_matching_lookup (d : string) (m : gmap string entry) (f : string) :
  remove_matching d m !! f =
    match m !! f with
    | Some (File c) => if Py.contains d (Py.lower f) then None else Some (File c)
    | o => o
    end.
Proof.
  unfold remove_matching. rewrite map_lookup_filter.
  destruct (m !! f) as [[c|]|]; simpl; [|reflexivity|reflexivity].
  destruct (Py.contains d (Py.lower f)); reflexivity.
Qed.

Lemma copy_file_cases (tdir cur cur' : gmap string entry) (g : string) :
  copy_file tdir cur g = Some cur' ->
  cur' = cur \/ exists c, tdir !! g = Some (File c) /\ cur !! g <> Some Dir /\
                          cur' = <[g := File c]> cur.
Proof.
  unfold copy_file. destruct (tdir !! g) as [[c|]|] eqn:Ht; [|discriminate|].
  - destruct (cur !! g) as [[c'|]|] eqn:Hg; intros H; injection H as <-; auto;
      right; exists c; (split; [reflexivity|split; [discriminate|reflexivity]]).
  - intros H. injection H as <-. auto.
Qed.

Lemma copy_files_back (tdir : gmap string entry) (f c : string) (fs : list string) :
  forall cur cur', copy_files tdir cur fs = Some cur' -> cur' !! f = Some (File c) ->
  cur !! f = Some (File c) \/ (In f fs /\ tdir !! f = Some (File c)).
Proof.
  induction fs as [|g fs IH]; intros cur cur' Hc Hf; simpl in Hc.
  - injection Hc as <-. auto.
  - destruct (copy_file tdir cur g) as [cur1|] eqn:H1; [|discriminate].
    destruct (IH cur1 cur' Hc Hf) as [H|[Hin Ht]]; [|simpl; auto].
    destruct (copy_file_cases tdir cur cur1 g H1) as [->|(c0 & Ht & _ & ->)]; [auto|].
    destruct (decide (g = f)) as [<-|Hne].
    + rewrite lookup_insert_eq in H. injection H as ->. simpl; auto.
    + rewrite lookup_insert_ne in H by exact Hne. auto.
Qed.

Lemma copy_files_frame (tdir : gmap string entry) (f : string) (fs : list string) :
  ~ In f fs -> forall cur cur', copy_files tdir cur fs = Some cur' -> cur' !! f = cur !! f.
Proof.
  induction fs as [|g fs IH]; intros Hnin cur cur' Hc; simpl in Hc.
  - injection Hc as <-. reflexivity.
  - destruct (copy_file tdir cur g) as [cur1|] eqn:H1; [|discriminate].
    rewrite (IH (fun H => Hnin (or_intror H)) cur1 cur' Hc).
    destruct (copy_file_cases tdir cur cur1 g H1) as [->|(c0 & _ & _ & ->)]; [reflexivity|].
    apply lookup_insert_ne. intros ->. apply Hnin. left. reflexivity.
Qed.

Lemma copy_files_no_dir (tdir : gmap string entry) (f : string) (fs : list string) :
  forall cur cur', copy_files tdir cur fs = Some cur' -> cur !! f <> Some Dir ->
  cur' !! f <> Some Dir.
Proof.
  induction fs as [|g fs IH]; intros cur cur' Hc Hf; simpl in Hc.
  - injection Hc as <-. exact Hf.
  - destruct (copy_file tdir cur g) as [cur1|] eqn:H1; [|discriminate].
    apply (IH cur1 cur' Hc).
    destruct (copy_file_cases tdir cur cur1 g H1) as [->|(c0 & _ & _ & ->)]; [exact Hf|].
    destruct (decide (g = f)) as [<-|Hne].
    + rewrite lookup_insert_eq. discriminate.
    + rewrite lookup_insert_ne by exact Hne. exact Hf.
Qed.

Lemma copy_files_keep (tdir : gmap string entry) (f c : string) (fs : list string) :
  tdir !! f = Some (File c) ->
  forall cur cur', copy_files tdir cur fs = Some cur' -> cur !! f = Some (File c) ->
  cur' !! f = Some (File c).
Proof.
  intros Ht. induction fs as [|g fs IH]; intros cur cur' Hc Hf; simpl in Hc.
  - injection Hc as <-. exact Hf.
  - destruct (copy_file tdir cur g) as [cur1|] eqn:H1; [|discriminate].
    apply (IH cur1 cur' Hc).
    destruct (copy_file_cases tdir cur cur1 g H1) as [->|(c0 & Hg & _ & ->)]; [exact Hf|].
    destruct (decide (g = f)) as [<-|Hne].
    + rewrite lookup_insert_eq. congruence.
    + rewrite lookup_insert_ne by exact Hne. exact Hf.
Qed.

Lemma copy_files_put (tdir : gmap string entry) (f c : string) (fs : list string) :
  tdir !! f = Some (File c) -> In f fs ->
  forall cur cur', copy_files tdir cur fs = Some cur' -> cur !! f <> Some Dir ->
  cur' !! f = Some (File c).
Proof.
  intros Ht. induction fs as [|g fs IH]; intros Hin cur cur' Hc Hf; simpl in Hc; [contradiction|].
  destruct (copy_file tdir cur g) as [cur1|] eqn:H1; [|discriminate].
  destruct (decide (g = f)) as [<-|Hne].
  - assert (Hcur1 : cur1 = <[g := File c]> cur).
    { unfold copy_file in H1. rewrite Ht in H1.
      destruct (cur !! g) as [[]|]; [| congruence |]; injection H1 as <-; reflexivity. }
    apply (copy_files_keep tdir g c fs Ht cur1 cur' Hc). rewrite Hcur1, lookup_insert_eq.
    reflexivity.
  - destruct Hin as [Heq|Hin]; [congruence|].
    apply (IH Hin cur1 cur' Hc). apply (copy_files_no_dir tdir f [g] cur cur1); [|exact Hf].
    simpl. rewrite H1. reflexivity.
Qed.

Lemma processed_not_in (P : list string) (d D : string) :
  D ∉ P -> D <> d -> D ∉ (if bool_decide (d ∈ P) then P else d :: P).
Proof.
  intros HP Hd. case_bool_decide; [exact HP|]. rewrite elem_of_cons. intuition.
Qed.

Lemma sync_rows_back (tdir : gmap string entry) (f c : string) (rows : list trow) :
  forall P m m', sync_rows tdir P m rows = Some m' -> m' !! f = Some (File c) ->
  (m !! f = Some (File c) /\
   forall D, In D (map normalized_doc rows) -> D ∉ P -> Py.contains D (Py.lower f) = false) \/
  (exists pre r post, rows = (pre ++ r :: post)%list /\ In f (filenames r) /\
     tdir !! f = Some (File c) /\
     forall D, In D (map normalized_doc post) -> D ∉ P ->
       ~ In D (map normalized_doc (pre ++ [r])) -> Py.contains D (Py.lower f) = false).
Proof.
  induction rows as [|r rs IH]; intros P m m' Hs Hf; simpl in Hs.
  - injection Hs as <-. left. split; [exact Hf|intros D []].
  - set (d := normalized_doc r) in Hs.
    destruct (copy_files tdir _ (filenames r)) as [cur2|] eqn:Hc; [|discriminate].
    destruct (IH _ cur2 m' Hs Hf) as [[H2 Hno]|(pre & r' & post & -> & Hin & Ht & Hno)].
    + destruct (copy_files_back tdir f c (filenames r) _ cur2 Hc H2) as [H1|[Hin Ht]].
      * destruct (bool_decide (d ∈ P)) eqn:Hseen.
        -- apply bool_decide_eq_true in Hseen. left. split; [exact H1|].
           intros D [<-|HD] HP; [contradiction|].
           apply Hno; [exact HD|exact HP].
        -- apply bool_decide_eq_false in Hseen.
           rewrite remove_matching_lookup in H1.
           destruct (m !! f) as [[c0|]|] eqn:Hmf; [|discriminate|discriminate].
           destruct (Py.contains d (Py.lower f)) eqn:Hcd; [discriminate|].
           left. split; [exact H1|]. intros D [<-|HD] HP; [exact Hcd|].
           destruct (decide (D = d)) as [->|Hne]; [exact Hcd|].
           apply Hno; [exact HD|]. rewrite elem_of_cons. intuition.
      * right. exists [], r, rs. split; [reflexivity|]. split; [exact Hin|]. split; [exact Ht|].
        intros D HD HP Hnd. apply Hno; [exact HD|].
        apply processed_not_in; [exact HP|]. intros ->. apply Hnd. left. reflexivity.
    + right. exists (r :: pre), r', post. split; [reflexivity|]. split; [exact Hin|].
      split; [exact Ht|]. intros D HD HP Hnd. simpl in Hnd.
      apply Hno; [exact HD| |intros H; apply Hnd; right; exact H].
      apply processed_not_in; [exact HP|]. intros ->. apply Hnd. left. reflexivity.
Qed.

Lemma sync_rows_fwd (tdir : gmap string entry) (ln f c : string) (rows : list trow) :
  (forall r, In r rows -> filenames r = find_matching_files tdir (normalized_doc r) ln) ->
  tdir !! f = Some (File c) -> f <> ln ->
  forall P m m', sync_rows tdir P m rows = Some m' -> m !! f <> Some Dir ->
  (m !! f = Some (File c) \/
   exists r, In r rows /\ Py.contains (normalized_doc r) (Py.lower f) = true) ->
  m' !! f = Some (File c).
Proof.
  intros Hfn Ht Hln. induction rows as [|r rs IH]; intros P m m' Hs Hnd Hpre; simpl in Hs.
  - injection Hs as <-. destruct Hpre as [H|(r & [] & _)]. exact H.
  - set (d := normalized_doc r) in Hs.
    set (cur1 := if bool_decide (d ∈ P) then m else remove_matching d m) in Hs.
    destruct (copy_files tdir cur1 (filenames r)) as [cur2|] eqn:Hc; [|discriminate].
    assert (Hnd1 : cur1 !! f <> Some Dir).
    { subst cur1. destruct (bool_decide (d ∈ P)); [exact Hnd|].
      rewrite remove_matching_lookup. destruct (m !! f) as [[c0|]|]; [|exact Hnd|discriminate].
      destruct (Py.contains d (Py.lower f)); discriminate. }
    assert (Hnd2 : cur2 !! f <> Some Dir) by exact (copy_files_no_dir _ _ _ _ _ Hc Hnd1).
    apply (IH (fun r' H => Hfn r' (or_intror H)) _ cur2 m' Hs Hnd2).
    destruct (Py.contains d (Py.lower f)) eqn:Hcd.
    + left. refine (copy_files_put tdir f c (filenames r) Ht _ cur1 cur2 Hc Hnd1).
      rewrite (Hfn r (or_introl eq_refl)). exact (find_matching_files_in tdir d ln f c Hln Hcd Ht).
    + assert (Heq : cur1 !! f = m !! f).
      { subst cur1. destruct (bool_decide (d ∈ P)); [reflexivity|].
        rewrite remove_matching_lookup. destruct (m !! f) as [[c0|]|]; [|reflexivity|reflexivity].
        rewrite Hcd. reflexivity. }
      destruct Hpre as [Hm|(r' & [<-|Hr'] & Hr'c)].
      * left. apply (copy_files_keep tdir f c _ Ht cur1 cur2 Hc). congruence.
      * fold d in Hr'c. congruence.
      * right. exists r'. auto.
Qed.

Lemma sync_rows_frame (tdir : gmap string entry) (f : string) (rows : list trow) :
  (forall r g, In r rows -> In g (filenames r) -> Py.contains (normalized_doc r) (Py.lower g) = true) ->
  (forall r, In r rows -> Py.contains (normalized_doc r) (Py.lower f) = false) ->
  forall P m m', sync_rows tdir P m rows = Some m' -> m' !! f = m !! f.
Proof.
  intros Hg. induction rows as [|r rs IH]; intros Hf P m m' Hs; simpl in Hs.
  - injection Hs as <-. reflexivity.
  - set (d := normalized_doc r) in Hs.
    set (cur1 := if bool_decide (d ∈ P) then m else remove_matching d m) in Hs.
    destruct (copy_files tdir cur1 (filenames r)) as [cur2|] eqn:Hc; [|discriminate].
    assert (Hcd : Py.contains d (Py.lower f) = false) by exact (Hf r (or_introl eq_refl)).
    rewrite (IH (fun r' g H => Hg r' g (or_intror H)) (fun r' H => Hf r' (or_intror H)) _ cur2 m' Hs).
    rewrite (copy_files_frame tdir f (filenames r)) with (cur := cur1) (cur' := cur2);
      [|intros Hin; pose proof (Hg r f (or_introl eq_refl) Hin); unfold d in Hcd; congruence|exact Hc].
    subst cur1. destruct (bool_decide (d ∈ P)); [reflexivity|].
    rewrite remove_matching_lookup. destruct (m !! f) as [[c0|]|]; [|reflexivity|reflexivity].
    rewrite Hcd. reflexivity.
Qed.

(** C7: after [sync_current_files] with the validated rows of a
    transmittal, (1) a regular file of the mirror whose lower-cased name
    contains an identifier of the transmittal was copied by a row at or
    after that identifier's first row (older files and files copied
    before it were deleted there); (2) every file listed on a row is in
    the mirror with the transmittal's content, unless the mirror has a
    directory of that name; (3) entries whose name contains none of the
    identifiers are untouched. *)
Theorem sync_current_files_replaces_by_document (dp : string -> option (Z * Z * Z))
  (tdir : gmap string entry) (ln : string) (idx : gset (string * string))
  (raws : list record) (rows : list trow) (m m' : gmap string entry)
  (Hrows : rows = oks (validate_rows dp tdir ln idx raws))
  (Hsync : sync_current_files m tdir rows = Some m') :
  (forall f c D, m' !! f = Some (File c) -> In D (map normalized_doc rows) ->
     Py.contains D (Py.lower f) = true ->
     exists pre r post, rows = (pre ++ r :: post)%list /\ In f (filenames r) /\
       tdir !! f = Some (File c) /\ In D (map normalized_doc (pre ++ [r]))) /\
  (forall r f c, In r rows -> In f (filenames r) -> tdir !! f = Some (File c) ->
     m !! f <> Some Dir -> m' !! f = Some (File c)) /\
  (forall f, (forall D, In D (map normalized_doc rows) -> Py.contains D (Py.lower f) = false) ->
     m' !! f = m !! f).
Proof.
  assert (Hfn : forall r, In r rows -> filenames r = find_matching_files tdir (normalized_doc r) ln).
  { subst rows. apply validated_filenames. }
  unfold sync_current_files in Hsync. split; [|split].
  - intros f c D Hf HD Hc.
    destruct (sync_rows_back tdir f c rows [] m m' Hsync Hf)
      as [[_ Hno]|(pre & r & post & Hsplit & Hin & Ht & Hno)].
    + rewrite (Hno D HD (not_elem_of_nil D)) in Hc. discriminate.
    + exists pre, r, post. split; [exact Hsplit|]. split; [exact Hin|]. split; [exact Ht|].
      destruct (in_dec string_dec D (map normalized_doc (pre ++ [r]))) as [Hpre|Hpre];
        [exact Hpre|].
      exfalso. rewrite Hsplit, map_app in HD. simpl in HD.
      apply in_app_or in HD as [HD|[HD|HD]].
      * apply Hpre. rewrite map_app. apply in_or_app. left. exact HD.
      * apply Hpre. rewrite map_app. apply in_or_app. right. left. exact HD.
      * rewrite (Hno D HD (not_elem_of_nil D) Hpre) in Hc. discriminate.
  - intros r f c Hr Hin Ht Hnd.
    assert (Hln : f <> ln).
    { rewrite (Hfn r Hr) in Hin. apply find_matching_files_files in Hin. tauto. }
    apply (sync_rows_fwd tdir ln f c rows Hfn Ht Hln [] m m' Hsync Hnd).
    right. exists r. split; [exact Hr|].
    rewrite (Hfn r Hr) in Hin. apply find_matching_files_files in Hin. tauto.
  - intros f Hf. apply (sync_rows_frame tdir f rows) with (P := []); [| |exact Hsync].
    + intros r g Hr Hg. rewrite (Hfn r Hr) in Hg. apply find_matching_files_files in Hg. tauto.
    + intros r Hr. apply Hf. apply in_map. exact Hr.
Qed.

Lemma sync_current_files_replaces_by_document_witness :
  match process_transmittal no_date_parser d_workbooks "T1" d_dir1 empty_project with
  | Finished Accepted st1 =>
      current st1 = {[ "a.pdf" := File "rev 1" ]} /\
      match process_transmittal no_date_parser d_workbooks "T2" d_dir2 st1 with
      | Finished Accepted st2 => current st2 = {[ "b.pdf" := File "rev 2" ]}
      | _ => False
      end
  | _ => False
  end /\
  let rows := oks (validate_rows no_date_parser d_dir2 "T2.xlsx" {[("d", "1")]}
                     [manifest_record (VStr "D") (VStr "2") (VStr "Doc")]) in
  let m : gmap string entry := {[ "a.pdf" := File "rev 1" ]} in
  let m' : gmap string entry := {[ "b.pdf" := File "rev 2" ]} in
  (forall f c D, m' !! f = Some (File c) -> In D (map normalized_doc rows) ->
     Py.contains D (Py.lower f) = true ->
     exists pre r post, rows = (pre ++ r :: post)%list /\ In f (filenames r) /\
       d_dir2 !! f = Some (File c) /\ In D (map normalized_doc (pre ++ [r]))) /\
  (forall r f c, In r rows -> In f (filenames r) -> d_dir2 !! f = Some (File c) ->
     m !! f <> Some Dir -> m' !! f = Some (File c)) /\
  (forall f, (forall D, In D (map normalized_doc rows) -> Py.contains D (Py.lower f) = false) ->
     m' !! f = m !! f).
Proof.
  split; [vm_compute; split; reflexivity|].
  assert (Hs : sync_current_files {[ "a.pdf" := File "rev 1" ]} d_dir2
      (oks (validate_rows no_date_parser d_dir2 "T2.xlsx" {[("d", "1")]}
              [manifest_record (VStr "D") (VStr "2") (VStr "Doc")])) =
      Some {[ "b.pdf" := File "rev 2" ]}) by (vm_compute; reflexivity).
  exact (sync_current_files_replaces_by_document no_date_parser d_dir2 "T2.xlsx" {[("d", "1")]}
           [manifest_record (VStr "D") (VStr "2") (VStr "Doc")] _ _ _ eq_refl Hs).
Defined.

(* ================================================================== *)
(** * Further properties of the code *)

(** ** [sorted] *)

Lemma insert_sorted_perm (x : string) (l : list string) :
  Permutation (Py.insert_sorted x l) (x :: l).
Proof.
  induction l as [|y l IH]; simpl; [reflexivity|].
  destruct (Py.str_ltb y x); [|reflexivity].
  rewrite IH. apply perm_swap.
Qed.

Lemma sorted_perm (l : list string) : Permutation (Py.sorted l) l.
Proof.
  unfold Py.sorted. induction l as [|x l IH]; simpl; [reflexivity|].
  rewrite insert_sorted_perm, IH. reflexivity.
Qed.

Lemma list_fmap_is_map {A B : Type} (f : A -> B) (l : list A) : f <$> l = map f l.
Proof. induction l as [|x l IH]; simpl; [reflexivity|]. by rewrite <- IH. Qed.

Lemma pending_names_nodup (m : gmap string (gmap string entry)) :
  List.NoDup (Py.sorted (map fst (map_to_list m))).
Proof.
  eapply Permutation_NoDup; [symmetry; apply sorted_perm|].
  rewrite <- list_fmap_is_map. apply NoDup_ListNoDup. exact (NoDup_fst_map_to_list m).
Qed.

Lemma pending_names_in (m : gmap string (gmap string entry)) (k : string) :
  In k (Py.sorted (map fst (map_to_list m))) <-> is_Some (m !! k).
Proof.
  rewrite sorted_in, in_map_iff. split.
  - intros ([k' x] & <- & Hin). apply list_elem_of_In, elem_of_map_to_list in Hin. simpl. eauto.
  - intros [x Hx]. exists (k, x). split; [reflexivity|].
    apply list_elem_of_In, elem_of_map_to_list. exact Hx.
Qed.

Lemma pending_names_length (m : gmap string (gmap string entry)) :
  length (Py.sorted (map fst (map_to_list m))) = size m.
Proof.
  rewrite (Permutation_length (sorted_perm _)), length_map. apply length_map_to_list.
Qed.

(** ** The outcome of one transmittal *)

Lemma process_cases (dp : string -> option (Z * Z * Z)) (lw : string -> option sheet)
  (name : string) (tdir : gmap string entry) (st : project) :
  process_transmittal dp lw name tdir st = reject name tdir st \/
  process_transmittal dp lw name tdir st = Aborted st \/
  exists rows, process_transmittal dp lw name tdir st = accept name tdir rows st.
Proof.
  unfold process_transmittal. cbv zeta.
  destruct (tdir !! _); [|auto]. destruct (load_existing_versions _); [|auto].
  destruct (read_manifest _ _); [|auto].
  destruct (oks _) as [|r rs]; [auto|]. destruct (errs _); eauto.
Qed.

Lemma reject_finished (name : string) (tdir : gmap string entry) (st st' : project) (v : verdict) :
  reject name tdir st = Finished v st' ->
  pending st' = delete name (pending st) /\
  size (accepted st') + size (rejected st') = S (size (accepted st) + size (rejected st)).
Proof.
  destruct (reject_spec name tdir st) as (c & Hfree & ->). intros H. injection H as _ <-.
  simpl. split; [reflexivity|]. rewrite map_size_insert_None by exact Hfree. lia.
Qed.

Lemma accept_finished (name : string) (tdir : gmap string entry) (rows : list trow)
  (st st' : project) (v : verdict) :
  accept name tdir rows st = Finished v st' ->
  pending st' = delete name (pending st) /\
  size (accepted st') + size (rejected st') = S (size (accepted st) + size (rejected st)).
Proof.
  unfold accept.
  destruct (append_to_database _ _); [|discriminate].
  destruct (update_document_list _ _); [|discriminate].
  destruct (sync_current_files _ _ _); [|discriminate]. simpl.
  destruct (move_transmittal_spec name tdir (accepted st)) as (c & -> & Hfree & _).
  intros H. injection H as _ <-. simpl. split; [reflexivity|].
  rewrite map_size_insert_None by exact Hfree. lia.
Qed.

Lemma accept_aborted (name : string) (tdir : gmap string entry) (rows : list trow)
  (st st' : project) :
  accept name tdir rows st = Aborted st' ->
  pending st' = pending st /\ accepted st' = accepted st /\ rejected st' = rejected st.
Proof.
  unfold accept.
  destruct (append_to_database _ _); [|intros H; injection H as <-; auto].
  destruct (update_document_list _ _); [|intros H; injection H as <-; auto].
  destruct (sync_current_files _ _ _); [|intros H; injection H as <-; auto]. simpl.
  destruct (move_transmittal _ _ _) as [[]|]; [discriminate|intros H; injection H as <-; auto].
Qed.

Lemma process_finished (dp : string -> option (Z * Z * Z)) (lw : string -> option sheet)
  (name : string) (tdir : gmap string entry) (st st' : project) (v : verdict) :
  process_transmittal dp lw name tdir st = Finished v st' ->
  pending st' = delete name (pending st) /\
  size (accepted st') + size (rejected st') = S (size (accepted st) + size (rejected st)).
Proof.
  destruct (process_cases dp lw name tdir st) as [->|[->|[rows ->]]].
  - apply reject_finished.
  - discriminate.
  - apply accept_finished.
Qed.

Lemma process_aborted (dp : string -> option (Z * Z * Z)) (lw : string -> option sheet)
  (name : string) (tdir : gmap string entry) (st st' : project) :
  process_transmittal dp lw name tdir st = Aborted st' ->
  pending st' = pending st /\ accepted st' = accepted st /\ rejected st' = rejected st.
Proof.
  destruct (process_cases dp lw name tdir st) as [->|[->|[rows ->]]].
  - destruct (reject_spec name tdir st) as (c & _ & ->). discriminate.
  - intros H. injection H as <-. auto.
  - apply accept_aborted.
Qed.

(** ** The run over the pending transmittals *)

Lemma run_pending_completed (dp : string -> option (Z * Z * Z)) (lw : string -> option sheet)
  (ns : list string) :
  forall st st', run_pending dp lw ns st = Completed st' -> List.NoDup ns ->
  (forall n, In n ns -> is_Some (pending st !! n)) ->
  (forall k, In k ns -> pending st' !! k = None) /\
  (forall k, ~ In k ns -> pending st' !! k = pending st !! k) /\
  size (accepted st') + size (rejected st') =
    size (accepted st) + size (rejected st) + length ns.
Proof.
  induction ns as [|n ns IH]; intros st st' Hrun Hnd Hin; simpl in Hrun.
  - injection Hrun as <-. split; [intros k []|]. split; [reflexivity|]. simpl. lia.
  - inversion Hnd as [|? ? Hn Hnd']. subst.
    destruct (pending st !! n) as [tdir|] eqn:Hp; [|discriminate].
    destruct (process_transmittal dp lw n tdir st) as [v st1|st1] eqn:Hpr; [|discriminate].
    destruct (process_finished dp lw n tdir st st1 v Hpr) as [Hpend Hsize].
    assert (Hin1 : forall m, In m ns -> is_Some (pending st1 !! m)).
    { intros m Hm. rewrite Hpend, lookup_delete_ne by (intros ->; contradiction).
      apply Hin. right. exact Hm. }
    destruct (IH st1 st' Hrun Hnd' Hin1) as (Hgone & Hkeep & Hcount).
    split; [|split].
    + intros k [<-|Hk]; [|exact (Hgone k Hk)].
      rewrite (Hkeep n Hn), Hpend. apply lookup_delete_eq.
    + intros k Hk. rewrite (Hkeep k (fun H => Hk (or_intror H))), Hpend.
      apply lookup_delete_ne. intros ->. apply Hk. left. reflexivity.
    + simpl. lia.
Qed.

Lemma run_pending_stopped (dp : string -> option (Z * Z * Z)) (lw : string -> option sheet)
  (ns : list string) :
  forall st st', run_pending dp lw ns st = Stopped st' -> List.NoDup ns ->
  exists pre n post, ns = (pre ++ n :: post)%list /\
    (forall k, In k pre -> pending st' !! k = None) /\
    (forall k, ~ In k pre -> pending st' !! k = pending st !! k).
Proof.
  induction ns as [|n ns IH]; intros st st' Hrun Hnd; simpl in Hrun; [discriminate|].
  inversion Hnd as [|? ? Hn Hnd']. subst.
  destruct (pending st !! n) as [tdir|] eqn:Hp.
  - destruct (process_transmittal dp lw n tdir st) as [v st1|st1] eqn:Hpr.
    + destruct (process_finished dp lw n tdir st st1 v Hpr) as [Hpend _].
      destruct (IH st1 st' Hrun Hnd') as (pre & m & post & -> & Hgone & Hkeep).
      exists (n :: pre), m, post. split; [reflexivity|]. split.
      * intros k [<-|Hk]; [|exact (Hgone k Hk)].
        assert (Hnp : ~ In n pre) by (intros H; apply Hn; apply in_or_app; left; exact H).
        rewrite (Hkeep n Hnp), Hpend. apply lookup_delete_eq.
      * intros k Hk. rewrite (Hkeep k (fun H => Hk (or_intror H))), Hpend.
        apply lookup_delete_ne. intros ->. apply Hk. left. reflexivity.
    + destruct (process_aborted dp lw n tdir st st1 Hpr) as (Hpend & _ & _).
      injection Hrun as <-. exists [], n, ns. split; [reflexivity|].
      split; [intros k []|]. intros k _. rewrite Hpend. reflexivity.
  - injection Hrun as <-. exists [], n, ns. split; [reflexivity|].
    split; [intros k []|]. reflexivity.
Qed.

Lemma process_slot (dp : string -> option (Z * Z * Z)) (lw : string -> option sheet)
  (name : string) (tdir : gmap string entry) (st st1 : project) (v : verdict) :
  process_transmittal dp lw name tdir st = Finished v st1 ->
  exists c, destination v st !! c = None /\
    destination v st1 = <[c := Moved tdir]> (destination v st) /\
    (forall w, w <> v -> destination w st1 = destination w st).
Proof.
  destruct (process_cases dp lw name tdir st) as [->|[->|[rows ->]]].
  - destruct (reject_spec name tdir st) as (c & Hfree & ->). intros H.
    injection H as <- <-. exists c. split; [exact Hfree|]. split; [reflexivity|].
    intros [|] Hw; [reflexivity|congruence].
  - discriminate.
  - unfold accept.
    destruct (append_to_database _ _); [|discriminate].
    destruct (update_document_list _ _); [|discriminate].
    destruct (sync_current_files _ _ _); [|discriminate]. simpl.
    destruct (move_transmittal_spec name tdir (accepted st)) as (c & -> & Hfree & _).
    intros H. injection H as <- <-. exists c. split; [exact Hfree|]. split; [reflexivity|].
    intros [|] Hw; [congruence|reflexivity].
Qed.

Lemma process_slot_frame (dp : string -> option (Z * Z * Z)) (lw : string -> option sheet)
  (name : string) (tdir : gmap string entry) (st st1 : project) (v : verdict) :
  process_transmittal dp lw name tdir st = Finished v st1 ->
  forall w c x, destination w st !! c = Some x -> destination w st1 !! c = Some x.
Proof.
  intros H w c x Hx. destruct (process_slot dp lw name tdir st st1 v H) as (c0 & Hfree & Hins & Hother).
  assert (Hdec : w = v \/ w <> v) by (destruct w, v; auto; right; discriminate).
  destruct Hdec as [->|Hw].
  - rewrite Hins, lookup_insert_ne; [exact Hx|]. intros ->. congruence.
  - rewrite (Hother w Hw). exact Hx.
Qed.

Lemma run_pending_slots (dp : string -> option (Z * Z * Z)) (lw : string -> option sheet)
  (ns : list string) :
  forall st st', run_pending dp lw ns st = Completed st' -> List.NoDup ns ->
  (forall n, In n ns -> is_Some (pending st !! n)) ->
  (forall w c x, destination w st !! c = Some x -> destination w st' !! c = Some x) /\
  exists g : string -> verdict * string,
    (forall n tdir, In n ns -> pending st !! n = Some tdir ->
       destination (g n).1 st !! (g n).2 = None /\
       destination (g n).1 st' !! (g n).2 = Some (Moved tdir)) /\
    (forall n m, In n ns -> In m ns -> g n = g m -> n = m).
Proof.
  induction ns as [|n ns IH]; intros st st' Hrun Hnd Hin; simpl in Hrun.
  - injection Hrun as <-. split; [auto|]. exists (fun _ => (Accepted, ""%string)).
    split; [intros ? ? []|intros ? ? []].
  - inversion Hnd as [|? ? Hn Hnd']. subst.
    destruct (pending st !! n) as [tdir|] eqn:Hp; [|discriminate].
    destruct (process_transmittal dp lw n tdir st) as [v st1|st1] eqn:Hpr; [|discriminate].
    destruct (process_finished dp lw n tdir st st1 v Hpr) as [Hpend _].
    destruct (process_slot dp lw n tdir st st1 v Hpr) as (c & Hfree & Hins & Hother).
    assert (Hin1 : forall m, In m ns -> is_Some (pending st1 !! m)).
    { intros m Hm. rewrite Hpend, lookup_delete_ne by (intros ->; contradiction).
      apply Hin. right. exact Hm. }
    destruct (IH st1 st' Hrun Hnd' Hin1) as (Hframe & g & Hslots & Hinj).
    assert (Hframe1 := process_slot_frame dp lw n tdir st st1 v Hpr).
    assert (Hback : forall w c' , destination w st1 !! c' = None -> destination w st !! c' = None).
    { intros w c' Hn1. destruct (destination w st !! c') eqn:Hx; [|reflexivity].
      rewrite (Hframe1 w c' n0 Hx) in Hn1. discriminate. }
    split; [intros w c' x Hx; apply Hframe, Hframe1, Hx|].
    exists (fun k => if String.eqb k n then (v, c) else g k). split.
    + intros k t [<-|Hk] Hkt.
      * rewrite String.eqb_refl. simpl. rewrite Hp in Hkt. injection Hkt as <-.
        split; [exact Hfree|]. apply Hframe. rewrite Hins. apply lookup_insert_eq.
      * destruct (String.eqb k n) eqn:Hkn; [apply String.eqb_eq in Hkn; subst; contradiction|].
        assert (Hkt1 : pending st1 !! k = Some t).
        { rewrite Hpend, lookup_delete_ne; [exact Hkt|]. intros ->. contradiction. }
        destruct (Hslots k t Hk Hkt1) as [Hf1 Hm1]. split; [apply Hback, Hf1|exact Hm1].
    + intros a b Ha Hb Hab.
      destruct (String.eqb a n) eqn:Han, (String.eqb b n) eqn:Hbn;
        apply String.eqb_eq in Han || apply String.eqb_neq in Han;
        apply String.eqb_eq in Hbn || apply String.eqb_neq in Hbn.
      * congruence.
      * exfalso. destruct Hb as [<-|Hb]; [congruence|].
        destruct (Hin1 b Hb) as [t Ht].
        destruct (Hslots b t Hb Ht) as [Hf1 _]. rewrite <- Hab in Hf1. simpl in Hf1.
        rewrite Hins, lookup_insert_eq in Hf1. discriminate.
      * exfalso. destruct Ha as [<-|Ha]; [congruence|].
        destruct (Hin1 a Ha) as [t Ht].
        destruct (Hslots a t Ha Ht) as [Hf1 _]. rewrite Hab in Hf1. simpl in Hf1.
        rewrite Hins, lookup_insert_eq in Hf1. discriminate.
      * destruct Ha as [<-|Ha]; [congruence|]. destruct Hb as [<-|Hb]; [congruence|].
        exact (Hinj a b Ha Hb Hab).
Qed.

(** [process_project] run to its end leaves no transmittal pending, and
    every transmittal that was pending has been relocated exactly once:
    each one's contents are stored under its own entry of the accepted or
    the rejected root, an entry that was free before the run; the entries
    the roots held before are kept; and the roots gained no other entry. *)
Theorem process_project_completed (dp : string -> option (Z * Z * Z))
  (lw : string -> option sheet) (st st' : project) :
  process_project dp lw st = Completed st' ->
  pending st' = ∅ /\
  size (accepted st') + size (rejected st') =
    size (accepted st) + size (rejected st) + size (pending st) /\
  (forall v c x, destination v st !! c = Some x -> destination v st' !! c = Some x) /\
  exists g : string -> verdict * string,
    (forall n tdir, pending st !! n = Some tdir ->
       destination (g n).1 st !! (g n).2 = None /\
       destination (g n).1 st' !! (g n).2 = Some (Moved tdir)) /\
    (forall n m, is_Some (pending st !! n) -> is_Some (pending st !! m) -> g n = g m -> n = m).
Proof.
  unfold process_project. intros Hrun.
  assert (Hnames : forall n, In n (Py.sorted (map fst (map_to_list (pending st)))) ->
                     is_Some (pending st !! n)) by (intros n Hn; apply pending_names_in; exact Hn).
  destruct (run_pending_completed dp lw _ st st' Hrun (pending_names_nodup (pending st)) Hnames)
    as (Hgone & Hkeep & Hcount).
  destruct (run_pending_slots dp lw _ st st' Hrun (pending_names_nodup (pending st)) Hnames)
    as (Hframe & g & Hslots & Hinj).
  split; [|split; [|split; [exact Hframe|]]].
  3:{ exists g. split.
      - intros n t Ht. apply Hslots; [apply pending_names_in; rewrite Ht; eauto|exact Ht].
      - intros n m Hn Hm. apply Hinj; apply pending_names_in; assumption. }
  - apply map_empty. intros k.
    destruct (in_dec string_dec k (Py.sorted (map fst (map_to_list (pending st))))) as [Hk|Hk].
    + exact (Hgone k Hk).
    + rewrite (Hkeep k Hk). destruct (pending st !! k) eqn:Hp; [|reflexivity].
      exfalso. apply Hk. apply pending_names_in. rewrite Hp. eauto.
  - rewrite Hcount, pending_names_length. reflexivity.
Qed.

(** When an exception ends [process_project], the transmittals are split
    in sorted order at the one being processed: those before it have
    left the pending root, and it and all later ones are still pending,
    untouched. *)
Theorem process_project_stopped (dp : string -> option (Z * Z * Z))
  (lw : string -> option sheet) (st st' : project) :
  process_project dp lw st = Stopped st' ->
  exists pre n post,
    Py.sorted (map fst (map_to_list (pending st))) = (pre ++ n :: post)%list /\
    (forall k, In k pre -> pending st' !! k = None) /\
    (forall k, In k (n :: post) -> is_Some (pending st !! k) /\ pending st' !! k = pending st !! k).
Proof.
  unfold process_project. intros Hrun.
  pose proof (pending_names_nodup (pending st)) as Hnd.
  destruct (run_pending_stopped dp lw _ st st' Hrun Hnd) as (pre & n & post & Hsplit & Hgone & Hkeep).
  exists pre, n, post. split; [exact Hsplit|]. split; [exact Hgone|].
  intros k Hk. split.
  - apply pending_names_in. rewrite Hsplit. apply in_or_app. right. exact Hk.
  - apply Hkeep. intros Hpre. rewrite Hsplit in Hnd.
    apply NoDup_ListNoDup, NoDup_app in Hnd as (_ & Hdis & _).
    exact (Hdis k (proj2 (list_elem_of_In _ _) Hpre) (proj2 (list_elem_of_In _ _) Hk)).
Qed.

(** ** The Version History Index after an append *)

Lemma validate_row_version (dp : string -> option (Z * Z * Z)) (tdir : gmap string entry)
  (ln : string) (idx : gset (string * string)) (r : record) (v : trow) :
  validate_row dp tdir ln idx r = inr v ->
  normalize_version (rget (raw v) "VERSION") = inr (normalized_version v).
Proof.
  intros H. destruct (validate_row_ok dp tdir ln idx r v H) as (d & _ & _ & Hv & _ & _ & Hr & _).
  rewrite Hr, rget_dict_set. exact Hv.
Qed.

Lemma blank_is_empty (c : cell) : is_blank c = true -> is_empty_value c = true.
Proof.
  destruct c as [|s|z|y m d]; simpl; try discriminate; [reflexivity|].
  intros H. apply String.eqb_eq in H. subst s. reflexivity.
Qed.

Lemma normalized_not_blank (c : cell) (s : string) :
  (normalize_doc_number c = inr s \/ normalize_version c = inr s) -> is_blank c = false.
Proof.
  intros H. destruct (is_blank c) eqn:Hb; [|reflexivity].
  apply blank_is_empty in Hb. unfold normalize_doc_number, normalize_version in H.
  rewrite Hb in H. destruct H; discriminate.
Qed.

Lemma ensure_database_header (db : option sheet) (sh : sheet) :
  ensure_workbook db DATABASE_HEADERS = Some sh ->
  sh <> [] /\ stored_headers sh = Some (map normalize_header DATABASE_HEADERS) /\
  match db with Some s => sh = s | None => sheet_body sh = [] end.
Proof.
  destruct db as [s|]; simpl.
  - destruct (stored_headers s) as [hs|] eqn:Hs; [|discriminate].
    case_bool_decide as Heq; [|discriminate]. intros H. injection H as <-.
    split; [|split; [congruence|reflexivity]].
    intros ->. vm_compute in Hs. injection Hs as <-. vm_compute in Heq. discriminate.
  - intros H. injection H as <-. split; [discriminate|]. split; [vm_compute; reflexivity|].
    reflexivity.
Qed.

Lemma database_indices :
  header_index "DOCUMENT NUMBER 1" (map normalize_header DATABASE_HEADERS) = Some 4 /\
  header_index "VERSION" (map normalize_header DATABASE_HEADERS) = Some 7.
Proof. vm_compute. split; reflexivity. Qed.

Lemma history_row_cells (r : trow) :
  nth_error (history_row r) 4 = Some (rget (raw r) "DOCUMENT NUMBER 1") /\
  nth_error (history_row r) 7 = Some (rget (raw r) "VERSION").
Proof. split; reflexivity. Qed.

Lemma load_history_rows (rows : list trow) :
  (forall r, In r rows ->
     normalize_doc_number (rget (raw r) "DOCUMENT NUMBER 1") = inr (normalized_doc r) /\
     normalize_version (rget (raw r) "VERSION") = inr (normalized_version r)) ->
  forall idx, fold_left (lev_step 4 7) (map history_row rows) (Some idx) =
    Some (idx ∪ list_to_set (map (fun r => (normalized_doc r, Py.lower (normalized_version r))) rows)).
Proof.
  induction rows as [|r rows IH]; intros Hr idx.
  - simpl. f_equal. set_solver.
  - cbn [map fold_left]. destruct (Hr r (or_introl eq_refl)) as [Hd Hv].
    destruct (history_row_cells r) as [H4 H7].
    assert (Hstep : lev_step 4 7 (Some idx) (history_row r) =
              Some ({[(normalized_doc r, Py.lower (normalized_version r))]} ∪ idx)).
    { unfold lev_step. rewrite H4, H7.
      rewrite (normalized_not_blank _ _ (or_introl Hd)), (normalized_not_blank _ _ (or_intror Hv)).
      simpl. rewrite Hd, Hv. reflexivity. }
    rewrite Hstep, IH by (intros r' Hin; apply Hr; right; exact Hin).
    f_equal. set_solver.
Qed.

(** Appending the validated rows of a transmittal to a History Table
    whose Version History Index can be built makes the index of the new
    table exactly the old index plus the (identifier, lower-cased
    version) pair of every appended row. *)
Theorem append_then_load_versions (dp : string -> option (Z * Z * Z))
  (tdir : gmap string entry) (ln : string) (idx0 : gset (string * string))
  (raws : list record) (rows : list trow) (db : option sheet) (db' : sheet)
  (idx : gset (string * string))
  (Hrows : rows = oks (validate_rows dp tdir ln idx0 raws))
  (Hload : load_existing_versions db = Some idx)
  (Happ : append_to_database db rows = Some db') :
  load_existing_versions (Some db') =
    Some (idx ∪ list_to_set (map (fun r => (normalized_doc r, Py.lower (normalized_version r))) rows)).
Proof.
  assert (Hvalid : forall r, In r rows ->
     normalize_doc_number (rget (raw r) "DOCUMENT NUMBER 1") = inr (normalized_doc r) /\
     normalize_version (rget (raw r) "VERSION") = inr (normalized_version r)).
  { intros r Hr. subst rows. apply oks_in in Hr. unfold validate_rows in Hr.
    apply in_map_iff in Hr as (x & Hx & _). split.
    - exact (validate_row_doc dp tdir ln idx0 x r Hx).
    - exact (validate_row_version dp tdir ln idx0 x r Hx). }
  unfold append_to_database in Happ.
  destruct (ensure_workbook db DATABASE_HEADERS) as [sh|] eqn:He; [|discriminate].
  injection Happ as <-.
  destruct (ensure_database_header db sh He) as (Hne & Hhdr & Hsame).
  destruct database_indices as [Hi4 Hi7].
  assert (Hold : fold_left (lev_step 4 7) (sheet_body sh) (Some ∅) = Some idx).
  { destruct db as [s|].
    - subst s. unfold load_existing_versions in Hload. rewrite Hhdr, Hi4, Hi7 in Hload.
      exact Hload.
    - injection Hload as <-. rewrite Hsame. reflexivity. }
  destruct sh as [|h body]; [contradiction|].
  unfold load_existing_versions.
  change (stored_headers ((h :: body) ++ map history_row rows)%list) with (stored_headers (h :: body)).
  rewrite Hhdr, Hi4, Hi7.
  change (sheet_body ((h :: body) ++ map history_row rows)%list)
    with (body ++ map history_row rows)%list.
  change (sheet_body (h :: body)) with body in Hold.
  rewrite fold_left_app, Hold.
  exact (load_history_rows rows Hvalid idx).
Qed.

Lemma accept_db (name : string) (tdir : gmap string entry) (rows : list trow)
  (st st' : project) :
  accept name tdir rows st = Finished Accepted st' ->
  exists db', append_to_database (db st) rows = Some db' /\ db st' = Some db'.
Proof.
  unfold accept.
  destruct (append_to_database _ _) as [db'|]; [|discriminate].
  destruct (update_document_list _ _); [|discriminate].
  destruct (sync_current_files _ _ _); [|discriminate]. simpl.
  destruct (move_transmittal _ _ _) as [[]|]; [|discriminate].
  intros H. injection H as <-. eauto.
Qed.

Ltac not_rejected H name tdir st :=
  let c := fresh "c" in let Hrej := fresh "Hrej" in
  destruct (reject_spec name tdir st) as (c & _ & Hrej); rewrite Hrej in H; discriminate.

(** After a transmittal is accepted, the Version History Index that the
    next transmittal is checked against is the one it was checked
    against plus the pairs of its rows, and any later manifest row with
    the same identifier and the same version up to letter case is
    refused. *)
Theorem accepted_versions_block_resubmission (dp : string -> option (Z * Z * Z))
  (lw : string -> option sheet) (name : string) (tdir : gmap string entry) (st st' : project) :
  process_transmittal dp lw name tdir st = Finished Accepted st' ->
  exists log idx raws,
    tdir !! (name +:+ ".xlsx") = Some log /\ load_existing_versions (db st) = Some idx /\
    read_manifest lw log = Some raws /\
    load_existing_versions (db st') =
      Some (idx ∪ list_to_set (map (fun r => (normalized_doc r, Py.lower (normalized_version r)))
                                  (oks (validate_rows dp tdir (name +:+ ".xlsx") idx raws)))) /\
    forall tdir2 ln2 (m : record) r nv,
      In r (oks (validate_rows dp tdir (name +:+ ".xlsx") idx raws)) ->
      normalize_doc_number (rget m "DOCUMENT NUMBER 1") = inr (normalized_doc r) ->
      normalize_version (rget m "VERSION") = inr nv ->
      Py.lower nv = Py.lower (normalized_version r) ->
      exists e, validate_row dp tdir2 ln2
        (idx ∪ list_to_set (map (fun r => (normalized_doc r, Py.lower (normalized_version r)))
                               (oks (validate_rows dp tdir (name +:+ ".xlsx") idx raws)))) m = inl e.
Proof.
  intros H. unfold process_transmittal in H. cbv zeta in H.
  destruct (tdir !! (name +:+ ".xlsx")) as [log|] eqn:Hl; [|not_rejected H name tdir st].
  destruct (load_existing_versions (db st)) as [idx|] eqn:Hi; [|discriminate].
  destruct (read_manifest lw log) as [raws|] eqn:Hr; [|not_rejected H name tdir st].
  exists log, idx, raws. do 3 (split; [first [reflexivity|assumption]|]).
  set (rows := oks (validate_rows dp tdir (name +:+ ".xlsx") idx raws)) in *.
  assert (Hacc : accept name tdir rows st = Finished Accepted st').
  { destruct rows as [|r0 rs]; [not_rejected H name tdir st|].
    destruct (errs _); [exact H|not_rejected H name tdir st]. }
  destruct (accept_db name tdir rows st st' Hacc) as (db' & Happ & Hdb).
  split.
  - rewrite Hdb. exact (append_then_load_versions dp tdir (name +:+ ".xlsx") idx raws rows
                          (db st) db' idx eq_refl Hi Happ).
  - intros tdir2 ln2 m r nv Hin Hd Hv Hlow.
    destruct (validate_row dp tdir2 ln2 _ m) as [e|v] eqn:Hval; [eauto|exfalso].
    destruct (validate_row_ok dp tdir2 ln2 _ m v Hval) as (d & _ & Hd' & Hv' & Hnot & _).
    rewrite Hd in Hd'. rewrite Hv in Hv'. injection Hd' as Hd'. injection Hv' as Hv'.
    apply Hnot. apply elem_of_union_r, elem_of_list_to_set, list_elem_of_In, in_map_iff.
    exists r. split; [|exact Hin]. rewrite <- Hd', <- Hv', Hlow. reflexivity.
Qed.

Lemma process_project_completed_witness :
  process_project no_date_parser two_workbooks two_pending = Completed two_processed /\
  size (accepted two_processed) = 1 /\ size (rejected two_processed) = 1 /\
  pending two_processed = ∅ /\
  size (accepted two_processed) + size (rejected two_processed) =
    size (accepted two_pending) + size (rejected two_pending) + size (pending two_pending) /\
  (forall v c x, destination v two_pending !! c = Some x -> destination v two_processed !! c = Some x) /\
  exists g : string -> verdict * string,
    (forall n tdir, pending two_pending !! n = Some tdir ->
       destination (g n).1 two_pending !! (g n).2 = None /\
       destination (g n).1 two_processed !! (g n).2 = Some (Moved tdir)) /\
    (forall n m, is_Some (pending two_pending !! n) -> is_Some (pending two_pending !! m) ->
       g n = g m -> n = m).
Proof.
  assert (H : process_project no_date_parser two_workbooks two_pending = Completed two_processed)
    by (vm_compute; reflexivity).
  split; [exact H|]. split; [vm_compute; reflexivity|]. split; [vm_compute; reflexivity|].
  exact (process_project_completed no_date_parser two_workbooks two_pending two_processed H).
Defined.

Lemma process_project_stopped_witness :
  process_project no_date_parser two_workbooks broken_pending = Stopped broken_pending /\
  exists pre n post,
    Py.sorted (map fst (map_to_list (pending broken_pending))) = (pre ++ n :: post)%list /\
    (forall k, In k pre -> pending broken_pending !! k = None) /\
    (forall k, In k (n :: post) ->
       is_Some (pending broken_pending !! k) /\
       pending broken_pending !! k = pending broken_pending !! k).
Proof.
  assert (H : process_project no_date_parser two_workbooks broken_pending = Stopped broken_pending)
    by (vm_compute; reflexivity).
  split; [exact H|].
  exact (process_project_stopped no_date_parser two_workbooks broken_pending broken_pending H).
Defined.

Lemma append_then_load_versions_witness :
  load_existing_versions None = Some ∅ /\
  append_to_database None (oks (validate_rows no_date_parser t1_dir "T1.xlsx" ∅ [spec100_b])) =
    Some [map VStr DATABASE_HEADERS;
          (manifest_cells (VStr "SPEC-100") (VStr "B") (VStr "Spec") ++ [VStr "SPEC-100.pdf"])%list] /\
  load_existing_versions
    (Some [map VStr DATABASE_HEADERS;
           (manifest_cells (VStr "SPEC-100") (VStr "B") (VStr "Spec") ++ [VStr "SPEC-100.pdf"])%list]) =
    Some (∅ ∪ list_to_set (map (fun r => (normalized_doc r, Py.lower (normalized_version r)))
            (oks (validate_rows no_date_parser t1_dir "T1.xlsx" ∅ [spec100_b])))).
Proof.
  assert (Hl : load_existing_versions None = Some ∅) by reflexivity.
  assert (Ha : append_to_database None (oks (validate_rows no_date_parser t1_dir "T1.xlsx" ∅ [spec100_b])) =
    Some [map VStr DATABASE_HEADERS;
          (manifest_cells (VStr "SPEC-100") (VStr "B") (VStr "Spec") ++ [VStr "SPEC-100.pdf"])%list])
    by (vm_compute; reflexivity).
  split; [exact Hl|]. split; [exact Ha|].
  exact (append_then_load_versions no_date_parser t1_dir "T1.xlsx" ∅ [spec100_b] _ None _ ∅
           eq_refl Hl Ha).
Defined.

Lemma accepted_versions_block_resubmission_witness :
  process_transmittal no_date_parser t1_workbooks "T1" t1_dir empty_project =
    Finished Accepted t1_processed /\
  exists log idx raws,
    t1_dir !! ("T1" +:+ ".xlsx") = Some log /\ load_existing_versions (db empty_project) = Some idx /\
    read_manifest t1_workbooks log = Some raws /\
    load_existing_versions (db t1_processed) =
      Some (idx ∪ list_to_set (map (fun r => (normalized_doc r, Py.lower (normalized_version r)))
                                  (oks (validate_rows no_date_parser t1_dir ("T1" +:+ ".xlsx") idx raws)))) /\
    forall tdir2 ln2 (m : record) r nv,
      In r (oks (validate_rows no_date_parser t1_dir ("T1" +:+ ".xlsx") idx raws)) ->
      normalize_doc_number (rget m "DOCUMENT NUMBER 1") = inr (normalized_doc r) ->
      normalize_version (rget m "VERSION") = inr nv ->
      Py.lower nv = Py.lower (normalized_version r) ->
      exists e, validate_row no_date_parser tdir2 ln2
        (idx ∪ list_to_set (map (fun r => (normalized_doc r, Py.lower (normalized_version r)))
                               (oks (validate_rows no_date_parser t1_dir ("T1" +:+ ".xlsx") idx raws)))) m = inl e.
Proof.
  assert (H : process_transmittal no_date_parser t1_workbooks "T1" t1_dir empty_project =
                Finished Accepted t1_processed) by (vm_compute; reflexivity).
  split; [exact H|].
  exact (accepted_versions_block_resubmission no_date_parser t1_workbooks "T1" t1_dir
           empty_project t1_processed H).
Defined.

(** ** [find_matching_files] *)

(** A file is listed for an identifier exactly when it is a regular
    file of the transmittal directory, other than the manifest, whose
    lower-cased name contains the identifier. *)
Theorem find_matching_files_iff (tdir : gmap string entry) (d ln f : string) :
  In f (find_matching_files tdir d ln) <->
  f <> ln /\ Py.contains d (Py.lower f) = true /\ exists c, tdir !! f = Some (File c).
Proof.
  split; [apply find_matching_files_files|].
  intros (Hn & Hd & c & Hf). exact (find_matching_files_in tdir d ln f c Hn Hd Hf).
Qed.

Lemma ltb_l_irrefl (a : list ascii) : Py.ltb_l a a = false.
Proof.
  induction a as [|x a IH]; simpl; [reflexivity|]. rewrite Nat.ltb_irrefl. exact IH.
Qed.

Lemma ltb_l_asym (a b : list ascii) : Py.ltb_l a b = true -> Py.ltb_l b a = false.
Proof.
  revert b. induction a as [|x a IH]; intros [|y b]; simpl; try discriminate; auto.
  destruct (nat_of_ascii x <? nat_of_ascii y)%nat eqn:H1.
  - intros _. apply Nat.ltb_lt in H1.
    assert (H2 : (nat_of_ascii y <? nat_of_ascii x)%nat = false) by (apply Nat.ltb_ge; lia).
    rewrite H2. reflexivity.
  - destruct (nat_of_ascii y <? nat_of_ascii x)%nat eqn:H2; [discriminate|].
    intros H. apply IH. exact H.
Qed.

Lemma ltb_l_total (a b : list ascii) : a <> b -> Py.ltb_l a b = true \/ Py.ltb_l b a = true.
Proof.
  revert b. induction a as [|x a IH]; intros [|y b] Hne; simpl; auto; try congruence.
  destruct (Nat.lt_trichotomy (nat_of_ascii x) (nat_of_ascii y)) as [Hl|[He|Hg]].
  - left. rewrite (proj2 (Nat.ltb_lt _ _) Hl). reflexivity.
  - rewrite He, Nat.ltb_irrefl. apply IH. intros <-. apply Hne.
    f_equal. rewrite <- (ascii_nat_embedding x), <- (ascii_nat_embedding y), He. reflexivity.
  - right. rewrite (proj2 (Nat.ltb_lt _ _) Hg). reflexivity.
Qed.

Lemma str_ltb_asym (a b : string) : Py.str_ltb a b = true -> Py.str_ltb b a = false.
Proof. apply ltb_l_asym. Qed.

Lemma str_ltb_total (a b : string) : a <> b -> Py.str_ltb a b = true \/ Py.str_ltb b a = true.
Proof.
  intros Hne. apply ltb_l_total. intros H. apply Hne.
  rewrite <- (string_of_list_ascii_of_string a), <- (string_of_list_ascii_of_string b), H.
  reflexivity.
Qed.

Lemma insert_sorted_sorted (x : string) (l : list string) :
  Sorted (fun a b => Py.str_ltb b a = false) l ->
  Sorted (fun a b => Py.str_ltb b a = false) (Py.insert_sorted x l).
Proof.
  induction l as [|y l IH]; intros Hs; simpl; [repeat constructor|].
  destruct (Py.str_ltb y x) eqn:Hyx.
  - apply Sorted_inv in Hs as [Hs Hhd]. constructor; [exact (IH Hs)|].
    destruct l as [|z l]; simpl.
    + constructor. exact (str_ltb_asym y x Hyx).
    + destruct (Py.str_ltb z x); constructor; [|exact (str_ltb_asym y x Hyx)].
      inversion Hhd. assumption.
  - constructor; [exact Hs|]. constructor. exact Hyx.
Qed.

Lemma sorted_sorted (l : list string) : Sorted (fun a b => Py.str_ltb b a = false) (Py.sorted l).
Proof.
  unfold Py.sorted. induction l as [|x l IH]; simpl; [constructor|].
  apply insert_sorted_sorted. exact IH.
Qed.

Lemma sorted_strict (l : list string) :
  Sorted (fun a b => Py.str_ltb b a = false) l -> List.NoDup l ->
  Sorted (fun a b => Py.str_ltb a b = true) l.
Proof.
  induction l as [|x l IH]; intros Hs Hnd; [constructor|].
  apply Sorted_inv in Hs as [Hs Hhd]. inversion Hnd as [|? ? Hx Hnd']. subst.
  constructor; [exact (IH Hs Hnd')|].
  destruct l as [|y l]; constructor. inversion Hhd as [|? ? Hxy]. subst.
  destruct (str_ltb_total x y) as [H|H]; [intros ->; apply Hx; left; reflexivity|exact H|].
  congruence.
Qed.

Lemma nodup_fst_filter {A : Type} (p : string * A -> bool) (l : list (string * A)) :
  List.NoDup (map fst l) -> List.NoDup (map fst (List.filter p l)).
Proof.
  induction l as [|[k v] l IH]; simpl; [auto|]. intros Hnd. inversion Hnd as [|? ? Hk Hnd']. subst.
  destruct (p (k, v)); simpl; [|exact (IH Hnd')].
  constructor; [|exact (IH Hnd')].
  intros Hin. apply Hk. apply in_map_iff in Hin as ([k' v'] & Heq & Hin). simpl in Heq. subst k'.
  apply filter_In in Hin as [Hin _]. apply in_map_iff. exists (k, v'). auto.
Qed.

(** The files listed for an identifier are distinct and come in
    strictly increasing code-point order. *)
Theorem find_matching_files_sorted (tdir : gmap string entry) (d ln : string) :
  List.NoDup (find_matching_files tdir d ln) /\
  Sorted (fun a b => Py.str_ltb a b = true) (find_matching_files tdir d ln).
Proof.
  assert (Hnd : List.NoDup (find_matching_files tdir d ln)).
  { unfold find_matching_files. eapply Permutation_NoDup; [symmetry; apply sorted_perm|].
    apply nodup_fst_filter. rewrite <- list_fmap_is_map. apply NoDup_ListNoDup.
    exact (NoDup_fst_map_to_list tdir). }
  split; [exact Hnd|]. apply sorted_strict; [apply sorted_sorted|exact Hnd].
Qed.

(** ** Directories in the Current Files mirror *)

Lemma copy_files_dir (tdir : gmap string entry) (f : string) (fs : list string) :
  forall cur cur', copy_files tdir cur fs = Some cur' ->
  (cur' !! f = Some Dir <-> cur !! f = Some Dir).
Proof.
  induction fs as [|g fs IH]; intros cur cur' Hc; simpl in Hc.
  - injection Hc as <-. reflexivity.
  - destruct (copy_file tdir cur g) as [cur1|] eqn:H1; [|discriminate].
    rewrite (IH cur1 cur' Hc).
    destruct (copy_file_cases tdir cur cur1 g H1) as [->|(c0 & _ & Hnd & ->)]; [reflexivity|].
    destruct (decide (g = f)) as [<-|Hne].
    + rewrite lookup_insert_eq. split; [discriminate|contradiction].
    + rewrite lookup_insert_ne by exact Hne. reflexivity.
Qed.

Lemma sync_rows_dir (tdir : gmap string entry) (f : string) (rows : list trow) :
  forall P m m', sync_rows tdir P m rows = Some m' -> (m' !! f = Some Dir <-> m !! f = Some Dir).
Proof.
  induction rows as [|r rs IH]; intros P m m' Hs; simpl in Hs.
  - injection Hs as <-. reflexivity.
  - destruct (copy_files tdir _ (filenames r)) as [cur2|] eqn:Hc; [|discriminate].
    rewrite (IH _ cur2 m' Hs), (copy_files_dir tdir f _ _ cur2 Hc).
    destruct (bool_decide _); [reflexivity|].
    rewrite remove_matching_lookup. destruct (m !! f) as [[c|]|]; [|reflexivity|reflexivity].
    destruct (Py.contains _ _); split; discriminate.
Qed.

(** The Current Files synchronizer never removes, replaces or creates a
    directory in the mirror, even one whose name contains an
    identifier of the transmittal. *)
Theorem sync_current_files_keeps_directories (cur tdir : gmap string entry) (rows : list trow)
  (cur' : gmap string entry) :
  sync_current_files cur tdir rows = Some cur' ->
  forall f, cur' !! f = Some Dir <-> cur !! f = Some Dir.
Proof. intros Hs f. exact (sync_rows_dir tdir f rows [] cur cur' Hs). Qed.

Lemma sync_current_files_keeps_directories_witness :
  sync_current_files mirror_with_dir t1_dir
    (oks (validate_rows no_date_parser t1_dir "T1.xlsx" ∅ [spec100_b])) =
    Some {[ "spec-100 old" := Dir; "SPEC-100.pdf" := File "pdf" ]} /\
  forall f, ({[ "spec-100 old" := Dir; "SPEC-100.pdf" := File "pdf" ]} : gmap string entry) !! f = Some Dir <->
            mirror_with_dir !! f = Some Dir.
Proof.
  assert (H : sync_current_files mirror_with_dir t1_dir
    (oks (validate_rows no_date_parser t1_dir "T1.xlsx" ∅ [spec100_b])) =
    Some {[ "spec-100 old" := Dir; "SPEC-100.pdf" := File "pdf" ]}) by (vm_compute; reflexivity).
  split; [exact H|].
  exact (sync_current_files_keeps_directories mirror_with_dir t1_dir _ _ H).
Defined.

(** ** Dates of validated rows *)

(** The DATE of every validated row is a date: a manifest cell that
    already is a date is kept as it is, and any other cell is replaced by
    the date the parser read from its text with surrounding whitespace
    trimmed. *)
Theorem validate_row_date (dp : string -> option (Z * Z * Z)) (tdir : gmap string entry)
  (ln : string) (idx : gset (string * string)) (r : record) (v : trow) :
  validate_row dp tdir ln idx r = inr v ->
  match rget r "DATE" with
  | VDate y mo d => rget (raw v) "DATE" = VDate y mo d
  | c => exists y mo d, dp (Py.strip (py_str c)) = Some (y, mo, d) /\
                        rget (raw v) "DATE" = VDate y mo d
  end.
Proof.
  intros H. destruct (validate_row_ok dp tdir ln idx r v H) as (d & _ & _ & _ & _ & Hc & Hr & _).
  rewrite Hr, rget_dict_set. simpl.
  unfold coerce_date in Hc. destruct (rget r "DATE") as [|s|z|y mo dd].
  - discriminate.
  - destruct (String.eqb _ "") ; [discriminate|].
    destruct (dp _) as [[[y mo] dd]|]; [|discriminate]. injection Hc as <-. eauto.
  - destruct (String.eqb _ "") ; [discriminate|].
    destruct (dp _) as [[[y mo] dd]|]; [|discriminate]. injection Hc as <-. eauto.
  - injection Hc as <-. reflexivity.
Qed.

Lemma validate_row_date_witness :
  validate_row iso_date_parser t1_dir "T1.xlsx" ∅ text_date_record = inr text_date_validated /\
  rget (raw text_date_validated) "DATE" = VDate 2024 3 1 /\
  (exists y mo d, iso_date_parser (Py.strip (py_str (VStr " 2024-03-01 "))) = Some (y, mo, d) /\
                  rget (raw text_date_validated) "DATE" = VDate y mo d) /\
  rget (raw validated_spec100_b) "DATE" = VDate 2024 3 1.
Proof.
  assert (H : validate_row iso_date_parser t1_dir "T1.xlsx" ∅ text_date_record =
              inr text_date_validated) by (vm_compute; reflexivity).
  assert (H2 : validate_row iso_date_parser t1_dir "T1.xlsx" ∅ spec100_b =
               inr validated_spec100_b) by (vm_compute; reflexivity).
  split; [exact H|]. split; [vm_compute; reflexivity|]. split.
  - exact (validate_row_date iso_date_parser t1_dir "T1.xlsx" ∅ text_date_record _ H).
  - exact (validate_row_date iso_date_parser t1_dir "T1.xlsx" ∅ spec100_b _ H2).
Defined.

(** ** Documents kept by the Latest-Version Index *)

Lemma ensure_workbook_some (sh sh' : sheet) (headers : list string) :
  ensure_workbook (Some sh) headers = Some sh' -> sh' = sh.
Proof.
  unfold ensure_workbook. destruct (stored_headers sh); [|discriminate].
  destruct (bool_decide _); [|discriminate]. intros Hs. injection Hs as <-. reflexivity.
Qed.

Lemma index_load_none (hdr : list cell) (rows : list (list cell)) :
  fold_left (index_load_step hdr) rows None = None.
Proof. induction rows as [|row rows IH]; simpl; [reflexivity|exact IH]. Qed.

Lemma index_load_keys (hdr : list cell) (rows : list (list cell)) :
  forall e e', fold_left (index_load_step hdr) rows (Some e) = Some e' ->
  (forall k, In k (map fst e) -> In k (map fst e')) /\
  (forall row rec k, In row rows -> forallb is_blank row = false ->
     index_record hdr row = Some rec ->
     normalize_doc_number (rget rec "DOCUMENT NUMBER 1") = inr k -> In k (map fst e')).
Proof.
  induction rows as [|row rows IH]; intros e e' Hf; simpl in Hf.
  - injection Hf as <-. split; [auto|intros ? ? ? []].
  - destruct (forallb is_blank row) eqn:Hb.
    + destruct (IH e e' Hf) as [Hmono Hadd]. split; [exact Hmono|].
      intros row' rec k [<-|Hin] Hb' Hrec Hk; [congruence|]. exact (Hadd row' rec k Hin Hb' Hrec Hk).
    + destruct (index_record hdr row) as [rec0|] eqn:Hrec0;
        [|rewrite index_load_none in Hf; discriminate].
      destruct (normalize_doc_number (rget rec0 "DOCUMENT NUMBER 1")) as [|k0] eqn:Hk0;
        [rewrite index_load_none in Hf; discriminate|].
      destruct (IH _ e' Hf) as [Hmono Hadd]. split.
      * intros k Hk. apply Hmono, dict_set_keys. auto.
      * intros row' rec k [<-|Hin] Hb' Hrec Hk; [|exact (Hadd row' rec k Hin Hb' Hrec Hk)].
        apply Hmono, dict_set_keys. left. congruence.
Qed.

Lemma merge_keys (rows : list trow) :
  forall e k, In k (map fst e) \/ (exists r, In r rows /\ normalized_doc r = k) ->
  In k (map fst (fold_left (fun e r => dict_set (normalized_doc r) (raw r) e) rows e)).
Proof.
  induction rows as [|r rows IH]; intros e k Hk; simpl.
  - destruct Hk as [Hk|(r & [] & _)]. exact Hk.
  - apply IH. destruct Hk as [Hk|(r' & [<-|Hin] & <-)].
    + left. apply dict_set_keys. auto.
    + left. apply dict_set_keys. auto.
    + right. eauto.
Qed.

(** Rewriting the Latest-Version Index never drops a document: every
    document of a non-blank row of the stored index, and every document
    of the accepted rows, has a row in the rewritten index. *)
Theorem update_document_list_keeps_documents (dp : string -> option (Z * Z * Z))
  (tdir : gmap string entry) (ln : string) (idx : gset (string * string))
  (raws : list record) (sh dl' : sheet) :
  update_document_list (Some sh) (oks (validate_rows dp tdir ln idx raws)) = Some dl' ->
  forall k,
    (exists row rec, In row (sheet_body sh) /\ forallb is_blank row = false /\
       index_record (sheet_header sh) row = Some rec /\
       normalize_doc_number (rget rec "DOCUMENT NUMBER 1") = inr k) \/
    (exists r, In r (oks (validate_rows dp tdir ln idx raws)) /\ normalized_doc r = k) ->
  exists row', In row' (sheet_body dl') /\ normalize_doc_number (nth 4 row' VNone) = inr k.
Proof.
  set (rows := oks (validate_rows dp tdir ln idx raws)).
  assert (Hrows : forall r, In r rows ->
            normalize_doc_number (rget (raw r) "DOCUMENT NUMBER 1") = inr (normalized_doc r)).
  { intros r Hr. apply oks_in in Hr. unfold validate_rows in Hr.
    apply in_map_iff in Hr as (x & Hx & _). exact (validate_row_doc dp tdir ln idx x r Hx). }
  unfold update_document_list.
  destruct (ensure_workbook (Some sh) EXPECTED_HEADERS) as [sh0|] eqn:Hens; [|discriminate].
  apply ensure_workbook_some in Hens. subst sh0.
  destruct (fold_left _ (sheet_body sh) (Some [])) as [existing|] eqn:Hload; [|discriminate].
  intros H k Hk. injection H as <-. simpl.
  assert (Hinv0 : index_inv existing).
  { apply (index_load_inv _ _ _ _ Hload). intros e He. injection He as <-.
    split; [constructor|intros k' rec []]. }
  destruct (index_merge_inv rows Hrows existing Hinv0) as [_ Hkeys].
  assert (Hin : In k (map fst (fold_left (fun e r => dict_set (normalized_doc r) (raw r) e)
                                 rows existing))).
  { apply merge_keys. destruct Hk as [(row & rec & Hrow & Hb & Hrec & Hkey)|Hk]; [left|right; exact Hk].
    exact (proj2 (index_load_keys _ _ _ _ Hload) row rec k Hrow Hb Hrec Hkey). }
  apply in_map_iff in Hin as ([k' rec] & Hk' & Hin). simpl in Hk'. subst k'.
  exists (index_row (k, rec)). split; [apply in_map; exact Hin|].
  rewrite index_row_doc. exact (Hkeys k rec Hin).
Qed.

Lemma update_document_list_keeps_documents_witness :
  update_document_list (Some index_two_docs)
    (oks (validate_rows no_date_parser t1_dir "T1.xlsx" ∅ [spec100_b])) =
    Some index_two_docs_updated /\
  exists row', In row' (sheet_body index_two_docs_updated) /\
    normalize_doc_number (nth 4 row' VNone) = inr "spec-200".
Proof.
  assert (H : update_document_list (Some index_two_docs)
    (oks (validate_rows no_date_parser t1_dir "T1.xlsx" ∅ [spec100_b])) =
    Some index_two_docs_updated) by (vm_compute; reflexivity).
  split; [exact H|].
  apply (update_document_list_keeps_documents no_date_parser t1_dir "T1.xlsx" ∅ [spec100_b]
           index_two_docs index_two_docs_updated H).
  left. exists (manifest_cells (VStr "SPEC-200") (VStr "A") (VStr "Other")),
              (manifest_record (VStr "SPEC-200") (VStr "A") (VStr "Other")).
  split; [simpl; auto|]. split; [vm_compute; reflexivity|].
  split; vm_compute; reflexivity.
Defined.

(** ** Columns of the manifest records *)

Lemma make_record_fold_no_key (k : string) (row : list cell) :
  forall (hs : list string) (r0 : record),
  (forall j, j < length row -> nth_error hs j <> Some k) ->
  dict_get k (fold_left (fun r '(c, h) => dict_set h c r) (combine row hs) r0) = dict_get k r0.
Proof.
  induction row as [|c0 row IH]; intros [|h hs] r0 Hno; simpl; try reflexivity.
  rewrite IH.
  - rewrite dict_get_dict_set. destruct (String.eqb k h) eqn:Hk; [|reflexivity].
    apply String.eqb_eq in Hk. subst h. exfalso. apply (Hno 0); simpl; [lia|reflexivity].
  - intros j Hj. apply (Hno (S j)). simpl. lia.
Qed.

Lemma make_record_fold_get (k : string) (c : cell) (row : list cell) :
  forall (hs : list string) (i : nat) (r0 : record),
  nth_error hs i = Some k -> nth_error row i = Some c ->
  (forall j, i < j -> nth_error hs j = Some k -> length row <= j) ->
  dict_get k (fold_left (fun r '(c, h) => dict_set h c r) (combine row hs) r0) = Some c.
Proof.
  induction row as [|c0 row IH]; intros [|h hs] i r0 Hh Hr Hlast.
  - destruct i; discriminate.
  - destruct i; discriminate.
  - destruct i; discriminate.
  - simpl. destruct i as [|i].
    + simpl in Hh, Hr. injection Hh as ->. injection Hr as ->.
      rewrite make_record_fold_no_key.
      * rewrite dict_get_dict_set, String.eqb_refl. reflexivity.
      * intros j Hj Hs. specialize (Hlast (S j) ltac:(lia) Hs). simpl in Hlast. lia.
    + apply (IH hs i); [exact Hh|exact Hr|].
      intros j Hj Hs. specialize (Hlast (S j) ltac:(lia) Hs). simpl in Hlast. lia.
Qed.

Lemma forall2_map_self {A B : Type} (P : A -> B -> Prop) (f : A -> B) (l : list A) :
  (forall x, In x l -> P x (f x)) -> Forall2 P l (map f l).
Proof.
  induction l as [|x l IH]; intros H; simpl; constructor.
  - apply H. simpl. auto.
  - apply IH. intros y Hy. apply H. simpl. auto.
Qed.

(** Each record read from a manifest belongs to one non-blank data row,
    in order.  A normalized header the row reaches is present in the
    record and holds the cell of the last column carrying it that the row
    reaches; a header the row does not reach is absent from the record. *)
Theorem read_sheet_rows_columns (sh : sheet) (recs : list record) :
  read_sheet_rows sh = Some recs ->
  exists hs, mapM normalize_header_cell (sheet_header sh) = Some hs /\
  Forall2 (fun row rec =>
     (forall i k c, nth_error hs i = Some k -> nth_error row i = Some c ->
        (forall j, i < j -> nth_error hs j = Some k -> length row <= j) -> dict_get k rec = Some c) /\
     (forall k, (forall i, i < length row -> nth_error hs i <> Some k) -> dict_get k rec = None))
    (List.filter (fun row => negb (forallb is_blank row)) (sheet_body sh)) recs.
Proof.
  unfold read_sheet_rows.
  destruct (existsb is_none_cell (sheet_header sh)); [discriminate|].
  destruct (mapM normalize_header_cell (sheet_header sh)) as [hs|]; [|discriminate].
  destruct (forallb _ EXPECTED_HEADERS); [|discriminate].
  intros H. injection H as <-. exists hs. split; [reflexivity|].
  apply forall2_map_self. intros row _. split.
  - intros i k c Hh Hr Hlast. exact (make_record_fold_get k c row hs i [] Hh Hr Hlast).
  - intros k Hno. unfold make_record. rewrite make_record_fold_no_key by exact Hno. reflexivity.
Qed.

Lemma read_sheet_rows_columns_witness :
  read_sheet_rows lower_header_manifest =
    Some [manifest_record (VStr "SPEC-100") (VStr "B") (VStr "Spec")] /\
  exists hs, mapM normalize_header_cell (sheet_header lower_header_manifest) = Some hs /\
  Forall2 (fun row rec =>
     (forall i k c, nth_error hs i = Some k -> nth_error row i = Some c ->
        (forall j, i < j -> nth_error hs j = Some k -> length row <= j) -> dict_get k rec = Some c) /\
     (forall k, (forall i, i < length row -> nth_error hs i <> Some k) -> dict_get k rec = None))
    (List.filter (fun row => negb (forallb is_blank row)) (sheet_body lower_header_manifest))
    [manifest_record (VStr "SPEC-100") (VStr "B") (VStr "Spec")].
Proof.
  assert (H : read_sheet_rows lower_header_manifest =
    Some [manifest_record (VStr "SPEC-100") (VStr "B") (VStr "Spec")]) by (vm_compute; reflexivity).
  split; [exact H|].
  exact (read_sheet_rows_columns lower_header_manifest _ H).
Defined.

(** ** Transmittals without a readable manifest *)

(** A transmittal whose manifest file is missing, or whose manifest
    cannot be read while the history table can, is rejected: it leaves
    the pending root for a fresh name under the rejected root, and the
    history table, the Latest-Version Index, the mirror and the accepted
    root are unchanged. *)
Theorem unreadable_manifest_rejected (dp : string -> option (Z * Z * Z))
  (lw : string -> option sheet) (name : string) (tdir : gmap string entry) (st : project) :
  tdir !! (name +:+ ".xlsx") = None \/
  (exists log idx, tdir !! (name +:+ ".xlsx") = Some log /\
     load_existing_versions (db st) = Some idx /\ read_manifest lw log = None) ->
  exists c, rejected st !! c = None /\
    process_transmittal dp lw name tdir st =
      Finished Rejected {| db := db st; doc_list := doc_list st; current := current st;
                           pending := delete name (pending st); accepted := accepted st;
                           rejected := <[c := Moved tdir]> (rejected st) |}.
Proof.
  intros Hcase. destruct (reject_spec name tdir st) as (c & Hfree & Hrej).
  exists c. split; [exact Hfree|]. rewrite <- Hrej. unfold process_transmittal.
  destruct Hcase as [Hnone|(log & idx & Hlog & Hidx & Hread)].
  - rewrite Hnone. reflexivity.
  - rewrite Hlog, Hidx, Hread. reflexivity.
Qed.

Lemma unreadable_manifest_rejected_witness :
  read_manifest short_header_workbooks (File "m1") = None /\
  exists c, rejected empty_project !! c = None /\
    process_transmittal no_date_parser short_header_workbooks "T1" t1_dir empty_project =
      Finished Rejected {| db := None; doc_list := None; current := ∅;
                           pending := delete "T1" (pending empty_project); accepted := ∅;
                           rejected := <[c := Moved t1_dir]> (rejected empty_project) |}.
Proof.
  assert (H : read_manifest short_header_workbooks (File "m1") = None) by (vm_compute; reflexivity).
  split; [exact H|].
  apply (unreadable_manifest_rejected no_date_parser short_header_workbooks "T1" t1_dir empty_project).
  right. exists (File "m1"), ∅. split; [vm_compute; reflexivity|]. split; [vm_compute; reflexivity|].
  exact H.
Defined.

(** ** Normalization is idempotent *)

Lemma is_space_lower_char (c : ascii) : Py.is_space (Py.lower_char c) = Py.is_space c.
Proof. destruct c as [[] [] [] [] [] [] [] []]; reflexivity. Qed.

Lemma lower_char_idem (c : ascii) : Py.lower_char (Py.lower_char c) = Py.lower_char c.
Proof. destruct c as [[] [] [] [] [] [] [] []]; reflexivity. Qed.

Lemma drop_while_map (p : ascii -> bool) (f : ascii -> ascii) (l : list ascii) :
  (forall c, p (f c) = p c) -> Py.drop_while p (map f l) = map f (Py.drop_while p l).
Proof.
  intros Hf. induction l as [|c l IH]; simpl; [reflexivity|].
  rewrite Hf. destruct (p c); [exact IH|reflexivity].
Qed.

Lemma rdrop_while_map (p : ascii -> bool) (f : ascii -> ascii) (l : list ascii) :
  (forall c, p (f c) = p c) -> Py.rdrop_while p (map f l) = map f (Py.rdrop_while p l).
Proof.
  intros Hf. unfold Py.rdrop_while. rewrite <- map_rev, drop_while_map by exact Hf.
  symmetry. apply map_rev.
Qed.

Lemma drop_while_app_last (p : ascii -> bool) (l : list ascii) (c : ascii) :
  p c = false -> Py.drop_while p (l ++ [c]) = (Py.drop_while p l ++ [c])%list.
Proof.
  intros Hc. induction l as [|c' l IH]; simpl; [rewrite Hc; reflexivity|].
  destruct (p c'); [exact IH|reflexivity].
Qed.

Lemma drop_while_head (p : ascii -> bool) (l : list ascii) :
  match Py.drop_while p l with [] => True | c :: _ => p c = false end.
Proof.
  induction l as [|c l IH]; simpl; [exact I|]. destruct (p c) eqn:Hc; [exact IH|exact Hc].
Qed.

Lemma drop_while_fixed (p : ascii -> bool) (l : list ascii) :
  match l with [] => True | c :: _ => p c = false end -> Py.drop_while p l = l.
Proof. destruct l as [|c l]; simpl; [reflexivity|]. intros Hc. rewrite Hc. reflexivity. Qed.

Lemma rdrop_keeps_head (p : ascii -> bool) (l : list ascii) :
  match l with [] => True | c :: _ => p c = false end ->
  match Py.rdrop_while p l with [] => True | c :: _ => p c = false end.
Proof.
  destruct l as [|c l]; [intros; exact I|]. intros Hc. unfold Py.rdrop_while. simpl.
  rewrite drop_while_app_last by exact Hc. rewrite rev_app_distr. simpl. exact Hc.
Qed.

Lemma drop_while_idem (p : ascii -> bool) (l : list ascii) :
  Py.drop_while p (Py.drop_while p l) = Py.drop_while p l.
Proof. apply drop_while_fixed, drop_while_head. Qed.

Lemma rdrop_while_idem (p : ascii -> bool) (l : list ascii) :
  Py.rdrop_while p (Py.rdrop_while p l) = Py.rdrop_while p l.
Proof. unfold Py.rdrop_while. rewrite rev_involutive, drop_while_idem. reflexivity. Qed.

Lemma strip_idem (s : string) : Py.strip (Py.strip s) = Py.strip s.
Proof.
  unfold Py.strip. rewrite list_ascii_of_string_of_list_ascii.
  rewrite (drop_while_fixed _ (Py.rdrop_while _ _)),
    rdrop_while_idem; [reflexivity|].
  apply rdrop_keeps_head, drop_while_head.
Qed.

Lemma strip_lower (s : string) : Py.strip (Py.lower s) = Py.lower (Py.strip s).
Proof.
  unfold Py.strip, Py.lower. rewrite !list_ascii_of_string_of_list_ascii.
  rewrite drop_while_map, rdrop_while_map by exact is_space_lower_char. reflexivity.
Qed.

Lemma lower_idem (s : string) : Py.lower (Py.lower s) = Py.lower s.
Proof.
  unfold Py.lower. rewrite list_ascii_of_string_of_list_ascii, map_map.
  rewrite (map_ext _ _ lower_char_idem). reflexivity.
Qed.

Lemma lower_empty (s : string) : Py.lower s = ""%string -> s = ""%string.
Proof.
  unfold Py.lower. intros H. destruct s as [|c s]; [reflexivity|].
  simpl in H. discriminate.
Qed.

(** A normalized document identifier, read back as a text cell,
    normalizes to itself, and so does a normalized version: the
    normalizations are idempotent. *)
Theorem normalize_fixed_points (v : cell) :
  (forall d, normalize_doc_number v = inr d -> normalize_doc_number (VStr d) = inr d) /\
  (forall ver, normalize_version v = inr ver -> normalize_version (VStr ver) = inr ver).
Proof.
  unfold normalize_doc_number, normalize_version.
  destruct (is_empty_value v) eqn:He; [split; discriminate|].
  assert (Hne : Py.strip (py_str v) <> ""%string).
  { intros Hs. destruct v; simpl in He, Hs; [discriminate|..]; rewrite Hs in He; discriminate. }
  split.
  - intros d Hd. injection Hd as <-. simpl.
    rewrite strip_lower, strip_idem.
    destruct (String.eqb (Py.lower (Py.strip (py_str v))) "") eqn:Hz.
    + apply String.eqb_eq, lower_empty in Hz. contradiction.
    + rewrite lower_idem. reflexivity.
  - intros ver Hv. injection Hv as <-. simpl. rewrite strip_idem.
    destruct (String.eqb (Py.strip (py_str v)) "") eqn:Hz; [apply String.eqb_eq in Hz; contradiction|].
    reflexivity.
Qed.

Lemma normalize_fixed_points_witness :
  normalize_doc_number (VStr " SPEC-100 ") = inr "spec-100" /\
  normalize_doc_number (VStr "spec-100") = inr "spec-100" /\
  normalize_version (VStr "spec-100") = inr "spec-100".
Proof.
  assert (Hd : normalize_doc_number (VStr " SPEC-100 ") = inr "spec-100") by (vm_compute; reflexivity).
  split; [exact Hd|]. split.
  - exact (proj1 (normalize_fixed_points (VStr " SPEC-100 ")) "spec-100" Hd).
  - apply (proj2 (normalize_fixed_points (VStr "spec-100")) "spec-100"). vm_compute. reflexivity.
Defined.
